(* ===================================================================== *)
(* FeedGenesis: the asset library's video-job handlers                    *)
(*   src/components/inventory/assets/AssetLibrary.tsx                     *)
(*                                                                       *)
(* A shallow embedding of the React component's handlers                  *)
(* (handleRefreshVideo, handleBulkRecovery, handleUpload, updateAsset,    *)
(* loadAssets) and of its progress simulation, with the properties of     *)
(* the job-reconciliation design checked against them.                    *)
(* ===================================================================== *)

From Stdlib Require Import String Ascii List ZArith QArith Qminmax Lqa Lia Bool.
From Stdlib Require Import DecimalString Qround.
From stdpp Require Import gmap strings list fin_maps.

Local Open Scope string_scope.

(* --------------------------------------------------------------------- *)
(* 1. JavaScript values, objects and truthiness                           *)
(* --------------------------------------------------------------------- *)

(** The values found in an asset row.  [undefined] is the absence of the
    key in the object. *)
Inductive JsVal : Type :=
| JNull
| JBool (b : bool)
| JStr (s : string)
| JStrs (l : list string).

#[global] Instance JsVal_eq_dec : EqDecision JsVal.
Proof. solve_decision. Defined.

(** An [AssetLibraryItem] (its interface lives in
    hooks/data/useAssetLibrary): a JavaScript object, read by property
    name and copied with the spread operator. *)
Abbreviation Asset := (gmap string JsVal).

(** [asset.k] for a property typed [string | undefined]: anything that is
    not a string reads as undefined. *)
Definition str_field (a : Asset) (k : string) : option string :=
  match a !! k with
  | Some (JStr s) => Some s
  | _ => None
  end.

(** Truthiness of a [string | undefined]: defined and not empty. *)
Definition truthy (o : option string) : bool :=
  match o with
  | Some s => negb (String.eqb s "")
  | None => false
  end.

(** [x || d] on strings. *)
Definition or_else (o : option string) (d : string) : string :=
  match o with
  | Some s => if String.eqb s "" then d else s
  | None => d
  end.

(** [a === b] for a property against a string literal. *)
Definition field_is (a : Asset) (k v : string) : bool :=
  match str_field a k with
  | Some s => String.eqb s v
  | None => false
  end.

(** [s.startsWith(p)] *)
Definition startsWith (s p : string) : bool := String.prefix p s.

(** [asset.k?.startsWith(p)], undefined (falsy) when the property is. *)
Definition field_startsWith (a : Asset) (k p : string) : bool :=
  match str_field a k with
  | Some s => startsWith s p
  | None => false
  end.

Fixpoint drop_chars (n : nat) (s : string) : string :=
  match n, s with
  | O, _ => s
  | S n', String _ s' => drop_chars n' s'
  | S _, EmptyString => EmptyString
  end.

(** [s.replace(pat, rep)] with a string pattern: the first occurrence
    only.  ([rep] holds no [$] here.) *)
Fixpoint replace_first (pat rep s : string) : string :=
  if String.prefix pat s then rep ++ drop_chars (String.length pat) s
  else match s with
       | EmptyString => EmptyString
       | String c s' => String c (replace_first pat rep s')
       end.

(* --------------------------------------------------------------------- *)
(* 2. The regular expression /video_id[:_](\w+)/i                         *)
(* --------------------------------------------------------------------- *)

Definition ascii_between (lo hi c : ascii) : bool :=
  (nat_of_ascii lo <=? nat_of_ascii c)%nat && (nat_of_ascii c <=? nat_of_ascii hi)%nat.

(** [\w]: [A-Za-z0-9_] *)
Definition is_word_char (c : ascii) : bool :=
  ascii_between "a" "z" c || ascii_between "A" "Z" c
  || ascii_between "0" "9" c || Ascii.eqb c "_".

(** Case folding of the [i] flag, on the ASCII letters. *)
Definition to_lower (c : ascii) : ascii :=
  if ascii_between "A" "Z" c then ascii_of_nat (nat_of_ascii c + 32) else c.

(** The literal part matched without regard to case; the rest of the
    subject is returned. *)
Fixpoint match_literal_ci (lit s : string) : option string :=
  match lit, s with
  | EmptyString, _ => Some s
  | String l lit', String c s' =>
      if Ascii.eqb (to_lower c) l then match_literal_ci lit' s' else None
  | String _ _, EmptyString => None
  end.

(** The greedy [\w+] group: the longest run of word characters. *)
Fixpoint take_word (s : string) : string :=
  match s with
  | String c s' => if is_word_char c then String c (take_word s') else EmptyString
  | EmptyString => EmptyString
  end.

(** The pattern anchored at the start of [s]; the capture group. *)
Definition match_here (s : string) : option string :=
  match match_literal_ci "video_id" s with
  | Some (String sep rest) =>
      if Ascii.eqb sep ":" || Ascii.eqb sep "_" then
        match take_word rest with
        | EmptyString => None
        | w => Some w
        end
      else None
  | _ => None
  end.

(** [description.match(/video_id[:_](\w+)/i)]: the leftmost match, group 1. *)
Fixpoint match_video_id (s : string) : option string :=
  match match_here s with
  | Some w => Some w
  | None =>
      match s with
      | EmptyString => None
      | String _ s' => match_video_id s'
      end
  end.

(** Lines 231-241 of handleRefreshVideo: the external video id of an
    asset, from the [pending_] placeholder in its url or else from its
    description.  [None] stands for [null]. *)
Definition extractVideoId (asset : Asset) : option string :=
  if truthy (str_field asset "asset_url") && field_startsWith asset "asset_url" "pending_"
  then option_map (replace_first "pending_" "") (str_field asset "asset_url")
  else if truthy (str_field asset "description")
  then match str_field asset "description" with
       | Some d => match_video_id d
       | None => None
       end
  else None.

(* --------------------------------------------------------------------- *)
(* 3. Effects: toasts, console, backend calls, component state            *)
(* --------------------------------------------------------------------- *)

(** A thrown [Error] or the reason of a rejected request. *)
Record JsError : Type := Error { message : string }.

(** The argument of [toast({...})]. *)
Record Toast : Type := { title : string; description : string; variant : option string }.

(** The [updates] argument of updateAsset: [{ url?: string; status?: string }]. *)
Record Updates : Type := { u_url : option string; u_status : option string }.

(** The object literal behind an [Updates]: only the keys that are set. *)
Definition updates_obj (u : Updates) : Asset :=
  match u_url u, u_status u with
  | Some x, Some y => {[ "url" := JStr x; "status" := JStr y ]}
  | Some x, None => {[ "url" := JStr x ]}
  | None, Some y => {[ "status" := JStr y ]}
  | None, None => ∅
  end.

(** [{ ...asset, ...updates }] *)
Definition spread (asset : Asset) (u : Updates) : Asset := updates_obj u ∪ asset.

(** [response.data.data] of templatesAPI.heygen.getStatus. *)
Record StatusData : Type :=
  { status : string; videoUrl : option string; errorMessage : option string }.

(** One element of [response.data.data] of templatesAPI.heygen.recoverPending. *)
Record RecoveryResult : Type := { updated : bool }.

(** What the component does to the outside and to its own state, in order. *)
Inductive Event : Type :=
| EToast (t : Toast)
| EConsoleLog (label : string)
| EConsoleError (label : string) (e : JsError)
| ECallGetStatus (videoId : string)
| ECallRecoverPending
| ECallUpdateAsset (assetId : string) (updates : Updates)
| ECallGetLibraryAssets
| ESetAssets (l : list Asset)
| ESetFilteredAssets (l : list Asset)
| ESetSelectedAssetForUpload (a : option Asset)
| ESetShowUploadModal (b : bool).

(** An awaited backend request: the promise rejects (network failure, a
    5xx answer), or [response.data] is [{success: true, data}] or
    [{success: false, error}]. *)
Inductive Reply (A : Type) : Type :=
| Rejected (e : JsError)
| Success (data : A)
| Failure (error : option string).
Arguments Rejected {A} e.
Arguments Success {A} data.
Arguments Failure {A} error.

(** How a call ends. *)
Inductive Completion (A : Type) : Type :=
| Returned (a : A)
| Thrown (e : JsError).
Arguments Returned {A} a.
Arguments Thrown {A} e.

(** The collaborators of the component: templatesAPI.heygen, assetsAPI and
    the useAssetLibrary hook.  Their code is on the server; here they
    answer as they please. *)
Record Backend : Type := {
  api_getStatus : string -> Reply StatusData;
  api_recoverPending : Reply (list RecoveryResult);
  api_updateAsset : string -> Updates -> Reply Asset;
  hook_getLibraryAssets : Completion (list Asset)
}.

(** The useState cells of the component the handlers touch, and the log. *)
Record Component : Type := {
  assets : list Asset;
  filteredAssets : list Asset;
  showUploadModal : bool;
  selectedAssetForUpload : option Asset;
  log : list Event
}.

Definition Async (A : Type) : Type := Component -> Completion A * Component.

Definition ret {A} (a : A) : Async A := fun c => (Returned a, c).

Definition bind {A B} (m : Async A) (k : A -> Async B) : Async B :=
  fun c => match m c with
           | (Returned a, c') => k a c'
           | (Thrown e, c') => (Thrown e, c')
           end.

Definition throw {A} (e : JsError) : Async A := fun c => (Thrown e, c).

(** [try { body } catch (error) { handler }] *)
Definition try_catch {A} (body : Async A) (handler : JsError -> Async A) : Async A :=
  fun c => match body c with
           | (Returned a, c') => (Returned a, c')
           | (Thrown e, c') => handler e c'
           end.

Declare Scope async_scope.
Delimit Scope async_scope with async.
Notation "'let*' x ':=' m 'in' k" := (bind m (fun x => k))
  (at level 10, x name, m at level 100, k at level 200) : async_scope.
Notation "m ';;' k" := (bind m (fun _ => k))
  (at level 100, k at level 200, right associativity) : async_scope.
Local Open Scope async_scope.

Definition emit (e : Event) : Async unit :=
  fun c => (Returned tt,
            {| assets := assets c; filteredAssets := filteredAssets c;
               showUploadModal := showUploadModal c;
               selectedAssetForUpload := selectedAssetForUpload c;
               log := log c ++ [e] |}).

Definition toast (t : Toast) : Async unit := emit (EToast t).
Definition console_log (label : string) : Async unit := emit (EConsoleLog label).
Definition console_error (label : string) (e : JsError) : Async unit :=
  emit (EConsoleError label e).

Definition get_assets : Async (list Asset) := fun c => (Returned (assets c), c).

(** [setAssets(f)] with an updater function, and [setAssets(data)]. *)
Definition setAssets (f : list Asset -> list Asset) : Async unit :=
  fun c => let l := f (assets c) in
           (Returned tt,
            {| assets := l; filteredAssets := filteredAssets c;
               showUploadModal := showUploadModal c;
               selectedAssetForUpload := selectedAssetForUpload c;
               log := log c ++ [ESetAssets l] |}).

Definition setFilteredAssets (l : list Asset) : Async unit :=
  fun c => (Returned tt,
            {| assets := assets c; filteredAssets := l;
               showUploadModal := showUploadModal c;
               selectedAssetForUpload := selectedAssetForUpload c;
               log := log c ++ [ESetFilteredAssets l] |}).

Definition setSelectedAssetForUpload (a : option Asset) : Async unit :=
  fun c => (Returned tt,
            {| assets := assets c; filteredAssets := filteredAssets c;
               showUploadModal := showUploadModal c;
               selectedAssetForUpload := a;
               log := log c ++ [ESetSelectedAssetForUpload a] |}).

Definition setShowUploadModal (b : bool) : Async unit :=
  fun c => (Returned tt,
            {| assets := assets c; filteredAssets := filteredAssets c;
               showUploadModal := b;
               selectedAssetForUpload := selectedAssetForUpload c;
               log := log c ++ [ESetShowUploadModal b] |}).

(** [`${n}`] for a length. *)
Definition show_nat (n : nat) : string := NilEmpty.string_of_uint (Nat.to_uint n).

Definition count_updated (l : list RecoveryResult) : nat :=
  List.length (List.filter updated l).

(* --------------------------------------------------------------------- *)
(* 4. The handlers                                                        *)
(* --------------------------------------------------------------------- *)

Section Handlers.

Variable backend : Backend.

(** An awaited request whose answer is [response.data]: the call is
    logged, a rejected promise throws at the [await]. *)
Definition await {A} (call : Event) (r : Reply A) : Async (Reply A) :=
  emit call ;;
  match r with
  | Rejected e => throw e
  | _ => ret r
  end.

(** Lines 34-55. *)
Definition updateAsset (assetId : string) (updates : Updates) : Async Asset :=
  try_catch
    (let* response := await (ECallUpdateAsset assetId updates)
                            (api_updateAsset backend assetId updates) in
     match response with
     | Success data =>
         setAssets (fun prevAssets =>
                      List.map (fun asset =>
                                  if field_is asset "id" assetId
                                  then spread asset updates
                                  else asset) prevAssets) ;;
         ret data
     | Failure error => throw (Error (or_else error "Failed to update asset"))
     | Rejected e => throw e
     end)
    (fun error =>
       console_error "Failed to update asset:" error ;;
       throw error).

(** Lines 57-63. *)
Definition loadAssets : Async unit :=
  console_log "Loading assets from library..." ;;
  emit ECallGetLibraryAssets ;;
  match hook_getLibraryAssets backend with
  | Thrown e => throw e
  | Returned data =>
      console_log "Loaded assets from library:" ;;
      setAssets (fun _ => data) ;;
      setFilteredAssets data
  end.

(** Lines 217-301. *)
Definition handleRefreshVideo (assetId : string) : Async unit :=
  toast {| title := "Checking Video Status";
           description := "Getting latest video status from HeyGen...";
           variant := None |} ;;
  try_catch
    (let* assets := get_assets in
     match List.find (fun a => field_is a "id" assetId) assets with
     | None => throw (Error "Asset not found")
     | Some asset =>
         let videoId := extractVideoId asset in
         if negb (truthy videoId) then
           let* response := await ECallRecoverPending (api_recoverPending backend) in
           match response with
           | Success data =>
               toast {| title := "✅ Recovery Completed";
                        description := show_nat (List.length data) ++ " videos checked. "
                                       ++ show_nat (count_updated data) ++ " updated.";
                        variant := None |} ;;
               loadAssets
           | Failure error => throw (Error (or_else error "Recovery failed"))
           | Rejected e => throw e
           end
         else
           (* videoId is a non-empty string from here on *)
           let videoId := or_else videoId "" in
           let* response := await (ECallGetStatus videoId) (api_getStatus backend videoId) in
           match response with
           | Success data =>
               (if String.eqb (status data) "completed" && truthy (videoUrl data) then
                  updateAsset assetId {| u_url := videoUrl data; u_status := Some "completed" |} ;;
                  toast {| title := "✅ Video Ready";
                           description := "Video has been completed and is now available for download.";
                           variant := None |}
                else if String.eqb (status data) "failed" then
                  updateAsset assetId {| u_url := None; u_status := Some "failed" |} ;;
                  toast {| title := "❌ Video Failed";
                           description := or_else (errorMessage data) "Video generation failed.";
                           variant := Some "destructive" |}
                else
                  toast {| title := "⏳ Still Processing";
                           description := "Video is still being generated. Please wait.";
                           variant := None |}) ;;
               loadAssets
           | Failure error => throw (Error (or_else error "Failed to get video status"))
           | Rejected e => throw e
           end
     end)
    (fun error =>
       console_error "Error getting video status:" error ;;
       toast {| title := "Failed to Get Video Status";
                description := or_else (Some (message error))
                                       "Could not retrieve video status from HeyGen.";
                variant := Some "destructive" |}).

(** Lines 303-332. *)
Definition handleBulkRecovery : Async unit :=
  toast {| title := "Recovering Pending Videos";
           description := "Checking all pending HeyGen videos...";
           variant := None |} ;;
  try_catch
    (let* response := await ECallRecoverPending (api_recoverPending backend) in
     match response with
     | Success data =>
         let updatedCount := count_updated data in
         toast {| title := "✅ Bulk Recovery Completed";
                  description := show_nat (List.length data) ++ " videos checked. "
                                 ++ show_nat updatedCount ++ " videos updated.";
                  variant := None |} ;;
         loadAssets
     | Failure error => throw (Error (or_else error "Bulk recovery failed"))
     | Rejected e => throw e
     end)
    (fun error =>
       console_error "Error in bulk recovery:" error ;;
       toast {| title := "Failed to Recover Videos";
                description := or_else (Some (message error))
                                       "Could not recover pending videos.";
                variant := Some "destructive" |}).

(** The guard of handleUpload (line 335), the same as the render guard of
    the upload button (line 651). *)
Definition uploadable (asset : Asset) : bool :=
  field_is asset "asset_type" "video"
  && truthy (str_field asset "asset_url")
  && negb (field_is asset "asset_url" "processing")
  && negb (field_is asset "asset_url" "pending").

(** Lines 334-345. *)
Definition handleUpload (asset : Asset) : Async unit :=
  if uploadable asset then
    setSelectedAssetForUpload (Some asset) ;;
    setShowUploadModal true
  else
    toast {| title := "Upload Not Available";
             description := "Only completed videos can be uploaded to social media platforms.";
             variant := Some "destructive" |}.

End Handlers.

(** Lines 66-69: the videos the progress simulation runs for. *)
Definition isProcessingVideo (asset : Asset) : bool :=
  field_is asset "asset_url" "processing"
  || field_is asset "asset_url" "pending"
  || field_startsWith asset "asset_url" "pending_".

(** Lines 364-366. *)
Definition hasPendingHeyGenVideos (assets : list Asset) : bool :=
  List.existsb (fun asset =>
                  field_is asset "source_system" "heygen"
                  && (field_is asset "asset_url" "pending"
                      || field_is asset "asset_url" "processing"
                      || field_startsWith asset "asset_url" "pending_")) assets.

(** A freshly mounted component holding [l]. *)
Definition mounted (l : list Asset) : Component :=
  {| assets := l; filteredAssets := l; showUploadModal := false;
     selectedAssetForUpload := None; log := [] |}.

(* --------------------------------------------------------------------- *)
(* 5. The progress simulation (lines 65-111)                              *)
(* --------------------------------------------------------------------- *)

(** JavaScript numbers are taken as exact rationals: the clock readings
    are whole milliseconds and the formula only divides and multiplies by
    constants. *)
Abbreviation ProgressStates := (gmap string Q).

Definition totalDuration : Q := 300%Q.   (* 5 minutes in seconds *)
Definition targetProgress : Q := 92%Q.   (* Target 92% before completion *)

(** Lines 86-93: the progress shown after [elapsedTime] seconds. *)
Definition newProgress (elapsedTime : Q) : Q :=
  if Qle_bool totalDuration elapsedTime then targetProgress
  else Qmin targetProgress ((elapsedTime / totalDuration) * targetProgress)%Q.

(** [x || d] on numbers: undefined and 0 are falsy. *)
Definition num_or (o : option Q) (d : Q) : Q :=
  match o with
  | Some v => if Qeq_bool v 0%Q then d else v
  | None => d
  end.


(** [asset.id] inside a template string or as a key. *)
Definition asset_id (asset : Asset) : string :=
  match str_field asset "id" with
  | Some s => s
  | None => "undefined"
  end.




(** Lines 523 and 526: the value the progress bar shows. *)
Definition displayedProgress (progressStates : ProgressStates) (asset : Asset) : Q :=
  num_or (progressStates !! asset_id asset) 0%Q.

(* --------------------------------------------------------------------- *)
(* 6. The server side of bulk recovery                                    *)
(* --------------------------------------------------------------------- *)

(** The component only calls templatesAPI.heygen.recoverPending; the
    endpoint itself is server code that is not among the sources.  The
    definitions of this module follow the design document (sections 3,
    4.1, 4.2 and 4.3). *)
Module Reconciler.

(** Modelled from the spec: the states of a job (section 3); the server's
    own type is missing. *)
Inductive JobState : Type := Pending | Processing | Completed | Failed | Unknown.

(** Modelled from the spec: the reconciler's view of a persisted asset row
    (section 3); the server's own type is missing.  [externalJobId] is
    the id as already extracted from the location or the notes. *)
Record GenerationJob : Type := {
  id : string;
  externalJobId : option string;
  state : JobState;
  resultLocation : option string;
  jobError : option string
}.

(** Modelled from the spec: the provider's vocabulary once normalized
    (section 4.1); the status client is missing. *)
Inductive ProviderState : Type := ProviderCompleted | ProviderFailed | ProviderInProgress.

(** Modelled from the spec: the answer [{providerState, resultUrl?,
    errorMessage?}] of the status client (section 4.1). *)
Record ProviderStatus : Type := {
  providerState : ProviderState;
  resultUrl : option string;
  providerMessage : option string
}.

(** Modelled from the spec: the result of [fetchStatus] (section 4.1), a
    status or one of its two failures; the status client is missing. *)
Inductive FetchResult : Type :=
| Fetched (st : ProviderStatus)
| TransientProviderError
| PermanentProviderError.

(** Modelled from the spec: the outcomes of a check (section 4.2). *)
Inductive Outcome : Type :=
| NoOp | Unresolvable | Retryable | OutcomeCompleted | OutcomeFailed | StillInFlight.

(** Modelled from the spec: one entry of the result of bulk recovery,
    [{jobId, previousState, newState, updated}] (section 6), with the
    outcome it stands for. *)
Record ReconcileOutcome : Type := {
  jobId : string;
  outcome : Outcome;
  previousState : JobState;
  newState : JobState;
  wasUpdated : bool
}.

(** Modelled from the spec: [Completed] and [Failed] are terminal
    (section 3). *)
Definition terminal (s : JobState) : bool :=
  match s with
  | Completed | Failed => true
  | _ => false
  end.

(** Modelled from the spec: how each outcome is reported, with the state
    before and after and whether a write was made (section 4.2). *)
Definition report (job : GenerationJob) (o : Outcome) (job' : GenerationJob) (u : bool)
    : ReconcileOutcome * GenerationJob :=
  ({| jobId := id job; outcome := o; previousState := state job;
      newState := state job'; wasUpdated := u |}, job').

(** Modelled from the spec: the transition into [Failed], which sets the
    error message (sections 3 and 4.2). *)
Definition fail_with (job : GenerationJob) (msg : string) : GenerationJob :=
  {| id := id job; externalJobId := externalJobId job; state := Failed;
     resultLocation := None; jobError := Some msg |}.

Section WithProvider.

Variable fetchStatus : string -> FetchResult.

(** Modelled from the spec: the single-job check [checkOne] of section 4.2
    as the server runs it inside bulk recovery, which is missing from the
    sources.  A completed answer without a result location is read as a
    permanent failure (section 9). *)
Definition checkOne (job : GenerationJob) : ReconcileOutcome * GenerationJob :=
  if terminal (state job) then report job NoOp job false
  else match externalJobId job with
       | None => report job Unresolvable job false
       | Some ext =>
           match fetchStatus ext with
           | TransientProviderError => report job Retryable job false
           | PermanentProviderError =>
               report job OutcomeFailed (fail_with job "Unknown external job") true
           | Fetched st =>
               match providerState st, resultUrl st with
               | ProviderCompleted, Some loc =>
                   report job OutcomeCompleted
                          {| id := id job; externalJobId := externalJobId job;
                             state := Completed; resultLocation := Some loc;
                             jobError := None |} true
               | ProviderCompleted, None =>
                   report job OutcomeFailed
                          (fail_with job "Completed without a result location") true
               | ProviderFailed, _ =>
                   report job OutcomeFailed
                          (fail_with job (or_else (providerMessage st) "Generation failed")) true
               | ProviderInProgress, _ =>
                   match state job with
                   | Pending =>
                       report job StillInFlight
                              {| id := id job; externalJobId := externalJobId job;
                                 state := Processing; resultLocation := resultLocation job;
                                 jobError := jobError job |} true
                   | _ => report job StillInFlight job false
                   end
               end
           end
       end.

(** Modelled from the spec: the Job Record Store's [update(jobId, fields)]
    (section 6); the store is missing. *)
Definition store_update (store : list GenerationJob) (job' : GenerationJob)
    : list GenerationJob :=
  List.map (fun j => if String.eqb (id j) (id job') then job' else j) store.

(** Modelled from the spec: the jobs bulk recovery looks at, non-terminal
    and externally addressable (section 4.3). *)
Definition recoverable (job : GenerationJob) : bool :=
  negb (terminal (state job)) && bool_decide (is_Some (externalJobId job)).

(** Modelled from the spec: the loop of [recoverAll] (section 4.3), missing
    from the sources: each job checked in turn, its outcome recorded and
    its record written back, whatever the provider answered for the
    others. *)
Fixpoint recoverLoop (todo : list GenerationJob) (store : list GenerationJob)
    : list ReconcileOutcome * list GenerationJob :=
  match todo with
  | [] => ([], store)
  | job :: rest =>
      let '(o, job') := checkOne job in
      let store := if wasUpdated o then store_update store job' else store in
      let '(os, store) := recoverLoop rest store in
      (o :: os, store)
  end.

(** Modelled from the spec: [recoverAll] (section 4.3), the server side of
    templatesAPI.heygen.recoverPending, missing from the sources. *)
Definition recoverAll (store : list GenerationJob)
    : list ReconcileOutcome * list GenerationJob :=
  recoverLoop (List.filter recoverable store) store.

End WithProvider.

End Reconciler.

(* --------------------------------------------------------------------- *)
(* 7. Vocabulary for the statements                                       *)
(* --------------------------------------------------------------------- *)

(** A video the component no longer treats as in flight: its url is a
    final location, ['failed'] or missing (render, lines 514-551). *)
Definition isTerminalVideo (asset : Asset) : bool := negb (isProcessingVideo asset).

(** The asset [handleRefreshVideo] looks up (line 225). *)
Definition findAsset (assetId : string) (c : Component) : option Asset :=
  List.find (fun a => field_is a "id" assetId) (assets c).

Definition checkingToast : Toast :=
  {| title := "Checking Video Status";
     description := "Getting latest video status from HeyGen...";
     variant := None |}.

Definition videoReadyToast : Toast :=
  {| title := "✅ Video Ready";
     description := "Video has been completed and is now available for download.";
     variant := None |}.

Definition videoFailedToast (errorMessage : option string) : Toast :=
  {| title := "❌ Video Failed";
     description := or_else errorMessage "Video generation failed.";
     variant := Some "destructive" |}.

Definition stillProcessingToast : Toast :=
  {| title := "⏳ Still Processing";
     description := "Video is still being generated. Please wait.";
     variant := None |}.

Definition recoveryToast (data : list RecoveryResult) : Toast :=
  {| title := "✅ Recovery Completed";
     description := show_nat (List.length data) ++ " videos checked. "
                    ++ show_nat (count_updated data) ++ " updated.";
     variant := None |}.

Definition statusFailureToast (error : JsError) : Toast :=
  {| title := "Failed to Get Video Status";
     description := or_else (Some (message error))
                            "Could not retrieve video status from HeyGen.";
     variant := Some "destructive" |}.

(** What the catch block of handleRefreshVideo does (lines 293-300). *)
Definition caught (error : JsError) : list Event :=
  [EConsoleError "Error getting video status:" error; EToast (statusFailureToast error)].

(** What [await loadAssets()] adds to the log inside handleRefreshVideo,
    and the asset list it leaves. *)
Definition reloadEvents (backend : Backend) : list Event :=
  match hook_getLibraryAssets backend with
  | Returned data =>
      [EConsoleLog "Loading assets from library..."; ECallGetLibraryAssets;
       EConsoleLog "Loaded assets from library:"; ESetAssets data; ESetFilteredAssets data]
  | Thrown e =>
      [EConsoleLog "Loading assets from library..."; ECallGetLibraryAssets] ++ caught e
  end.

Definition reloadedAssets (backend : Backend) (before : list Asset) : list Asset :=
  match hook_getLibraryAssets backend with
  | Returned data => data
  | Thrown _ => before
  end.

(** The error a reply that is not a success throws. *)
Definition replyError {A} (r : Reply A) (default : string) : JsError :=
  match r with
  | Rejected e => e
  | Failure error => Error (or_else error default)
  | Success _ => Error default
  end.

Definition isSuccess {A} (r : Reply A) : bool :=
  match r with
  | Success _ => true
  | _ => false
  end.

(** The local rewrite done by updateAsset once the backend accepted it
    (lines 40-46). *)
Definition applyUpdates (assetId : string) (updates : Updates) (l : list Asset)
    : list Asset :=
  List.map (fun asset => if field_is asset "id" assetId then spread asset updates else asset) l.

(** What [await updateAsset(assetId, updates)] followed by the toast [t]
    and the reload adds to the log inside handleRefreshVideo. *)
Definition updateEvents (backend : Backend) (assetId : string) (updates : Updates)
    (t : Toast) (before : list Asset) : list Event :=
  ECallUpdateAsset assetId updates ::
  match api_updateAsset backend assetId updates with
  | Success _ =>
      [ESetAssets (applyUpdates assetId updates before); EToast t] ++ reloadEvents backend
  | r =>
      EConsoleError "Failed to update asset:" (replyError r "Failed to update asset")
      :: caught (replyError r "Failed to update asset")
  end.

Definition isUpdateCall (e : Event) : bool :=
  match e with
  | ECallUpdateAsset _ _ => true
  | _ => false
  end.

Definition isProviderCall (e : Event) : bool :=
  match e with
  | ECallGetStatus _ | ECallRecoverPending => true
  | _ => false
  end.

Definition toastsOf (l : list Event) : list Toast :=
  List.flat_map (fun e => match e with EToast t => [t] | _ => [] end) l.

(** The three ways handleRefreshVideo reads a status answer (lines 267,
    274, 281). *)
Inductive Verdict : Type := VCompleted | VFailed | VStillProcessing.

Definition classify (data : StatusData) : Verdict :=
  if String.eqb (status data) "completed" && truthy (videoUrl data) then VCompleted
  else if String.eqb (status data) "failed" then VFailed
  else VStillProcessing.

(** The call handleRefreshVideo sends for [asset]: the status endpoint when
    it found a video id, the bulk recovery endpoint when it did not. *)
Definition providerCall (asset : Asset) : Event :=
  match extractVideoId asset with
  | Some videoId => if String.eqb videoId "" then ECallRecoverPending else ECallGetStatus videoId
  | None => ECallRecoverPending
  end.

(** The error of a reply that is not a success, if it is not one. *)
Definition failureOf {A} (r : Reply A) (default : string) : option JsError :=
  match r with
  | Success _ => None
  | _ => Some (replyError r default)
  end.

(** The error handleRefreshVideo gets from the call it makes for [asset],
    when that call fails: the reason of a rejected request (a network
    failure, a 503), or the error of a [{success: false}] answer. *)
Definition providerFailure (backend : Backend) (asset : Asset) : option JsError :=
  match providerCall asset with
  | ECallGetStatus videoId =>
      failureOf (api_getStatus backend videoId) "Failed to get video status"
  | _ => failureOf (api_recoverPending backend) "Recovery failed"
  end.

(** The status endpoint answered with a verdict that is written back:
    [updates] goes to updateAsset and [t] is the toast after it. *)
Definition writeBack (data : StatusData) : option (Updates * Toast) :=
  match classify data with
  | VCompleted =>
      Some ({| u_url := videoUrl data; u_status := Some "completed" |}, videoReadyToast)
  | VFailed =>
      Some ({| u_url := None; u_status := Some "failed" |},
            videoFailedToast (errorMessage data))
  | VStillProcessing => None
  end.

(** Everything handleRefreshVideo logs after its call to the backend, for
    an asset it found: the reading of lines 243-300 as a list of events. *)
Definition afterCall (backend : Backend) (assetId : string) (before : list Asset)
    (asset : Asset) : list Event :=
  match providerCall asset with
  | ECallGetStatus videoId =>
      match api_getStatus backend videoId with
      | Success data =>
          match writeBack data with
          | Some (updates, t) => updateEvents backend assetId updates t before
          | None => EToast stillProcessingToast :: reloadEvents backend
          end
      | r => caught (replyError r "Failed to get video status")
      end
  | _ =>
      match api_recoverPending backend with
      | Success data => EToast (recoveryToast data) :: reloadEvents backend
      | r => caught (replyError r "Recovery failed")
      end
  end.

(* --------------------------------------------------------------------- *)
(* 8. Sample assets and backends                                          *)
(* --------------------------------------------------------------------- *)

(** A HeyGen video waiting under the [pending_] placeholder. *)
Definition pendingVideo : Asset :=
  {[ "id" := JStr "a1"; "asset_type" := JStr "video"; "source_system" := JStr "heygen";
     "asset_url" := JStr "pending_ext-9" ]}.

(** The same job once the worker picked it up; its id sits in the notes. *)
Definition processingVideo : Asset :=
  {[ "id" := JStr "a1"; "asset_type" := JStr "video"; "source_system" := JStr "heygen";
     "asset_url" := JStr "processing"; "description" := JStr "video_id:ext9" ]}.

(** A finished video, with the id of its job in the notes. *)
Definition finishedVideo : Asset :=
  {[ "id" := JStr "v7"; "asset_type" := JStr "video"; "source_system" := JStr "heygen";
     "asset_url" := JStr "https://cdn.example/v7.mp4";
     "description" := JStr "HeyGen video_id:abc123" ]}.

(** A queued video that carries no id at all. *)
Definition anonymousVideo : Asset :=
  {[ "id" := JStr "a2"; "asset_type" := JStr "video"; "source_system" := JStr "heygen";
     "asset_url" := JStr "pending" ]}.

(** A pending video whose row still holds the message of an earlier attempt. *)
Definition retriedVideo : Asset :=
  <["errorMessage" := JStr "previous attempt timed out"]> pendingVideo.

Definition completedStatus : StatusData :=
  {| status := "completed"; videoUrl := Some "https://x/video.mp4"; errorMessage := None |}.

Definition failedStatus : StatusData :=
  {| status := "failed"; videoUrl := None; errorMessage := Some "quota exceeded" |}.

Definition processingStatus : StatusData :=
  {| status := "processing"; videoUrl := None; errorMessage := None |}.

(** A backend that reports [data] for every video, accepts every update,
    finds no job to recover and serves [rows] as the library. *)
Definition answering (data : StatusData) (rows : list Asset) : Backend :=
  {| api_getStatus := fun _ => Success data;
     api_recoverPending := Success [];
     api_updateAsset := fun _ _ => Success ∅;
     hook_getLibraryAssets := Returned rows |}.

(** A backend behind a gateway that answers 503 to the provider calls. *)
Definition unavailable : Backend :=
  {| api_getStatus := fun _ => Rejected (Error "Request failed with status code 503");
     api_recoverPending := Rejected (Error "Request failed with status code 503");
     api_updateAsset := fun _ _ => Success ∅;
     hook_getLibraryAssets := Returned [] |}.

(** A backend whose bulk recovery finished one job, the library now
    holding [rows]. *)
Definition recovering (rows : list Asset) : Backend :=
  {| api_getStatus := fun _ => Failure None;
     api_recoverPending := Success [ {| updated := true |} ];
     api_updateAsset := fun _ _ => Success ∅;
     hook_getLibraryAssets := Returned rows |}.


(** The estimator as the design words it: linear in the elapsed seconds
    [t] up to [totalDuration], never above [cap]. *)
Definition estimate_spec (cap totalDuration t : Q) : Q :=
  Qmin cap ((t / totalDuration) * cap)%Q.




(** Four jobs in the store, all in flight and addressable, and a provider
    that is down for the third one only. *)
Definition jobNumber (n : string) (s : Reconciler.JobState) : Reconciler.GenerationJob :=
  {| Reconciler.id := "job-" ++ n; Reconciler.externalJobId := Some ("ext-" ++ n);
     Reconciler.state := s; Reconciler.resultLocation := None;
     Reconciler.jobError := None |}.

Definition fourJobs : list Reconciler.GenerationJob :=
  [jobNumber "1" Reconciler.Pending; jobNumber "2" Reconciler.Processing;
   jobNumber "3" Reconciler.Pending; jobNumber "4" Reconciler.Pending].

Definition downForThird (ext : string) : Reconciler.FetchResult :=
  if String.eqb ext "ext-3" then Reconciler.TransientProviderError
  else Reconciler.Fetched
         {| Reconciler.providerState := Reconciler.ProviderCompleted;
            Reconciler.resultUrl := Some ("https://x/" ++ ext ++ ".mp4");
            Reconciler.providerMessage := None |}.


(** Unfolding of the effect primitives, to run a handler symbolically. *)
Ltac unfold_async :=
  unfold updateAsset, loadAssets, await, toast, console_log, console_error,
    emit, setAssets, setFilteredAssets, setSelectedAssetForUpload,
    setShowUploadModal, get_assets, bind, try_catch, throw, ret.

(* --------------------------------------------------------------------- *)
(* 9. The other handlers of the component                                 *)
(* --------------------------------------------------------------------- *)

(** The rest of the useAssetLibrary hook, and [window.confirm].  Their
    code is elsewhere; here they answer as they please. *)
Record LibraryHooks : Type := {
  hook_toggleFavorite : string -> bool -> Completion unit;
  hook_deleteFromLibrary : string -> Completion unit;
  window_confirm : string -> bool
}.

(** [await p] for a promise of nothing. *)
Definition awaitHook (r : Completion unit) : Async unit :=
  match r with
  | Returned _ => ret tt
  | Thrown e => throw e
  end.

(** Lines 113-119.  Nothing catches what loadAssets throws here. *)
Definition handleManualRefresh (backend : Backend) : Async unit :=
  toast {| title := "Refreshing Assets";
           description := "Loading latest asset updates...";
           variant := None |} ;;
  loadAssets backend.

(** Lines 153-159.  The list rewritten is the [assets] of the render the
    handler was created in. *)
Definition handleToggleFavorite (hooks : LibraryHooks) (id : string)
    (currentFavorited : bool) : Async unit :=
  let* assets := get_assets in
  awaitHook (hook_toggleFavorite hooks id (negb currentFavorited)) ;;
  setAssets (fun _ =>
               List.map (fun asset =>
                           if field_is asset "id" id
                           then <["favorited" := JBool (negb currentFavorited)]> asset
                           else asset) assets).

(** Lines 161-166. *)
Definition handleDelete (hooks : LibraryHooks) (id : string) : Async unit :=
  let* assets := get_assets in
  if window_confirm hooks "Are you sure you want to remove this asset from your library?"
  then
    awaitHook (hook_deleteFromLibrary hooks id) ;;
    setAssets (fun _ => List.filter (fun asset => negb (field_is asset "id" id)) assets)
  else ret tt.

(** Lines 347-354; [platform] is [result.platform]. *)
Definition handleUploadComplete (platform : option string) : Async unit :=
  setShowUploadModal false ;;
  setSelectedAssetForUpload None ;;
  toast {| title := "Upload Successful!";
           description := "Your video has been uploaded to "
                          ++ or_else platform "social media" ++ ".";
           variant := None |}.

(** Lines 685-688: the [onClose] of the upload modal. *)
Definition onClose : Async unit :=
  setShowUploadModal false ;;
  setSelectedAssetForUpload None.

(** Line 682: whether the upload modal is rendered. *)
Definition uploadModalShown (c : Component) : bool :=
  showUploadModal c && bool_decide (is_Some (selectedAssetForUpload c)).

(** Lines 356-361. *)
Record AssetCounts : Type := {
  count_all : nat; count_image : nat; count_video : nat; count_content : nat
}.

Definition assetCounts (assets : list Asset) : AssetCounts :=
  {| count_all := List.length assets;
     count_image := List.length (List.filter (fun a => field_is a "asset_type" "image") assets);
     count_video := List.length (List.filter (fun a => field_is a "asset_type" "video") assets);
     count_content :=
       List.length (List.filter (fun a => field_is a "asset_type" "content") assets) |}.

(* --------------------------------------------------------------------- *)
(* 10. What a video card shows (lines 512-596 and 641-661)                *)
(* --------------------------------------------------------------------- *)

Inductive VideoPanel : Type :=
| Spinner            (* the progress bar, lines 515-540 *)
| FailurePanel       (* "Video generation failed", lines 542-550 *)
| Player (src : string).   (* the <video> element, lines 552-593 *)

(** Lines 514, 541 and 551. *)
Definition videoPanel (asset : Asset) : VideoPanel :=
  if field_is asset "asset_url" "processing" || field_is asset "asset_url" "pending"
  then Spinner
  else if field_is asset "asset_url" "failed" || negb (truthy (str_field asset "asset_url"))
  then FailurePanel
  else Player (or_else (str_field asset "asset_url") "").

(** Line 645: the [disabled] of the download button. *)
Definition downloadDisabled (asset : Asset) : bool :=
  negb (truthy (str_field asset "asset_url"))
  || field_is asset "asset_url" "processing"
  || field_is asset "asset_url" "pending".

(** [Math.round]: the nearest integer, halves upwards. *)
Definition Math_round (x : Q) : Z := Qfloor (x + (1 # 2))%Q.

(** Line 526: the percentage printed beside the bar. *)
Definition percentLabel (progressStates : ProgressStates) (asset : Asset) : Z :=
  Math_round (displayedProgress progressStates asset).

(** Line 529: [progressStates[asset.id] >= 92]; undefined is not. *)
Definition almostComplete (progressStates : ProgressStates) (asset : Asset) : bool :=
  match progressStates !! asset_id asset with
  | Some p => Qle_bool 92%Q p
  | None => false
  end.

(** Line 531: the minutes of "Estimated time remaining". *)
Definition minutesRemaining (progressStates : ProgressStates) (asset : Asset) : Z :=
  Z.max 1 (Math_round ((300 - (displayedProgress progressStates asset / 92 * 300)) / 60)%Q).

(* --------------------------------------------------------------------- *)
(* 11. handleDownload (lines 168-199)                                     *)
(* --------------------------------------------------------------------- *)

(** [s.includes(sub)] *)
Fixpoint includes (s sub : string) : bool :=
  if String.prefix sub s then true
  else match s with
       | EmptyString => false
       | String _ s' => includes s' sub
       end.

(** The characters encodeURIComponent leaves as they are. *)
Definition is_unreserved (c : ascii) : bool :=
  ascii_between "a" "z" c || ascii_between "A" "Z" c || ascii_between "0" "9" c
  || Ascii.eqb c "-" || Ascii.eqb c "_" || Ascii.eqb c "." || Ascii.eqb c "!"
  || Ascii.eqb c "~" || Ascii.eqb c "*" || Ascii.eqb c "'" || Ascii.eqb c "("
  || Ascii.eqb c ")".

Definition hex_digit (n : nat) : ascii :=
  match String.get n "0123456789ABCDEF" with
  | Some c => c
  | None => "0"%char
  end.

(** [encodeURIComponent], on the UTF-8 bytes of the string: every byte
    that is not unreserved becomes [%XX]. *)
Fixpoint encodeURIComponent (s : string) : string :=
  match s with
  | EmptyString => EmptyString
  | String c s' =>
      if is_unreserved c then String c (encodeURIComponent s')
      else String "%" (String (hex_digit (nat_of_ascii c / 16))
                         (String (hex_digit (nat_of_ascii c mod 16))
                            (encodeURIComponent s')))
  end.

(** A string property inside a template string. *)
Definition template_field (asset : Asset) (k : string) : string :=
  match asset !! k with
  | Some (JStr s) => s
  | Some JNull => "null"
  | Some (JBool true) => "true"
  | Some (JBool false) => "false"
  | Some (JStrs l) => String.concat "," l
  | None => "undefined"
  end.

(** Lines 172-176: the address the link points to. *)
Definition downloadUrl (asset : Asset) : string :=
  let asset_url := or_else (str_field asset "asset_url") "" in
  if includes asset_url "supabase.co/storage" then
    asset_url ++ "?download=" ++ encodeURIComponent (template_field asset "title") ++ "."
    ++ (if field_is asset "asset_type" "image" then "png" else "mp4")
  else asset_url.

(** What handleDownload does to the page. *)
Inductive DownloadStep : Type :=
| DClickLink (href download target : string)
| DConsoleError (label : string) (e : JsError)
| DToast (t : Toast).

(** Lines 168-199.  [dom] is how the creation and the click of the link
    end. *)
Definition handleDownload (dom : Completion unit) (asset : Asset) : list DownloadStep :=
  if truthy (str_field asset "asset_url") && negb (field_is asset "asset_type" "content")
  then
    match dom with
    | Returned _ =>
        [DClickLink (downloadUrl asset)
                    (template_field asset "title" ++ "-" ++ template_field asset "asset_type")
                    "_blank";
         DToast {| title := "Download Started";
                   description := "Downloading " ++ template_field asset "title" ++ "...";
                   variant := None |}]
    | Thrown e =>
        [DConsoleError "Download error:" e;
         DToast {| title := "Download Failed";
                   description := "Failed to download the asset. Please try again.";
                   variant := Some "destructive" |}]
    end
  else [].

Definition countOf (p : Event -> bool) (l : list Event) : nat :=
  List.length (List.filter p l).

(** A video in the library with a favorite flag. *)
Definition favoriteVideo : Asset :=
  <["favorited" := JBool true]> (<["title" := JStr "Spring sale / 50% off"]> finishedVideo).

(** A library hook that does what it is asked, with a user who confirms. *)
Definition obliging : LibraryHooks :=
  {| hook_toggleFavorite := fun _ _ => Returned tt;
     hook_deleteFromLibrary := fun _ => Returned tt;
     window_confirm := fun _ => true |}.

(** A stored video on Supabase storage. *)
Definition storedVideo : Asset :=
  {[ "id" := JStr "s1"; "asset_type" := JStr "video"; "title" := JStr "Spring sale / 50% off";
     "asset_url" := JStr "https://abc.supabase.co/storage/v1/object/public/videos/s1.mp4" ]}.


(** A backend that reports [data] for every video and refuses every
    update. *)
Definition readOnly (data : StatusData) : Backend :=
  {| api_getStatus := fun _ => Success data;
     api_recoverPending := Success [];
     api_updateAsset := fun _ _ => Failure (Some "Asset is locked");
     hook_getLibraryAssets := Returned [] |}.

(** Every character of [s] satisfies [p]. *)
Fixpoint string_forallb (p : ascii -> bool) (s : string) : bool :=
  match s with
  | EmptyString => true
  | String c s' => p c && string_forallb p s'
  end.

(** [s] with its ASCII capitals folded. *)
Fixpoint fold_case (s : string) : string :=
  match s with
  | EmptyString => EmptyString
  | String c s' => String (to_lower c) (fold_case s')
  end.

(** [s] is empty or begins with a character that is not a word character. *)
Definition word_ends_here (s : string) : bool :=
  match s with
  | EmptyString => true
  | String c _ => negb (is_word_char c)
  end.


(** An asset counted under none of the three tabs. *)
Definition otherType (a : Asset) : bool :=
  negb (field_is a "asset_type" "image") && negb (field_is a "asset_type" "video")
  && negb (field_is a "asset_type" "content").




(** A backend whose status endpoint answers [{success: false}] for an id
    the provider does not know: a failure that no retry will mend. *)
Definition unknownToProvider : Backend :=
  {| api_getStatus := fun _ => Failure (Some "Video not found");
     api_recoverPending := Failure (Some "Video not found");
     api_updateAsset := fun _ _ => Success ∅;
     hook_getLibraryAssets := Returned [] |}.


(* ===================================================================== *)
(* Properties                                                             *)
(* ===================================================================== *)

Example match_video_id_ignores_case : match_video_id "HeyGen Video_ID:abc_12-x" = Some "abc_12". Proof. reflexivity. Qed.
Example match_video_id_leftmost_match : match_video_id "video_id video_id_ video_id__9" = Some "_9". Proof. reflexivity. Qed.
Example replace_first_strips_placeholder : replace_first "pending_" "" "pending_ext-9" = "ext-9". Proof. reflexivity. Qed.
Example extractVideoId_prefers_url : extractVideoId {[ "asset_url" := JStr "pending_ext-9"; "description" := JStr "video_id:zz" ]} = Some "ext-9".
Proof. reflexivity. Qed.
Example extractVideoId_bare_placeholder : extractVideoId {[ "asset_url" := JStr "pending_" ; "description" := JStr "video_id:zz" ]} = Some "".
Proof. reflexivity. Qed.


(* --------------------------------------------------------------------- *)
(* Running the handlers                                                   *)
(* --------------------------------------------------------------------- *)

Lemma refresh_not_found backend assetId c :
  findAsset assetId c = None ->
  handleRefreshVideo backend assetId c =
  (Returned tt,
   {| assets := assets c; filteredAssets := filteredAssets c;
      showUploadModal := showUploadModal c;
      selectedAssetForUpload := selectedAssetForUpload c;
      log := log c ++ [EToast checkingToast] ++ caught (Error "Asset not found") |}).
Proof.
  unfold findAsset, handleRefreshVideo. intros Hfind. unfold_async.
  cbn [assets log]. rewrite Hfind. cbn. rewrite <- !app_assoc. reflexivity.
Qed.

(** No usable video id: the bulk recovery endpoint answers for the job. *)
Lemma refresh_without_id backend assetId c asset :
  findAsset assetId c = Some asset ->
  truthy (extractVideoId asset) = false ->
  handleRefreshVideo backend assetId c =
  (Returned tt,
   match api_recoverPending backend with
   | Success data =>
       {| assets := reloadedAssets backend (assets c);
          filteredAssets := reloadedAssets backend (filteredAssets c);
          showUploadModal := showUploadModal c;
          selectedAssetForUpload := selectedAssetForUpload c;
          log := log c ++ [EToast checkingToast; ECallRecoverPending;
                           EToast (recoveryToast data)] ++ reloadEvents backend |}
   | r =>
       {| assets := assets c; filteredAssets := filteredAssets c;
          showUploadModal := showUploadModal c;
          selectedAssetForUpload := selectedAssetForUpload c;
          log := log c ++ [EToast checkingToast; ECallRecoverPending]
                       ++ caught (replyError r "Recovery failed") |}
   end).
Proof.
  unfold findAsset, handleRefreshVideo, reloadedAssets, reloadEvents.
  intros Hfind Hid. unfold_async. cbn [assets log]. rewrite Hfind, Hid. cbn [negb].
  destruct (api_recoverPending backend) as [e|data|err]; cbn;
    try (rewrite <- !app_assoc; reflexivity).
  destruct (hook_getLibraryAssets backend) as [l|e]; cbn;
    rewrite <- !app_assoc; reflexivity.
Qed.

(** The status endpoint did not answer with a success. *)
Lemma refresh_status_failure backend assetId c asset videoId :
  findAsset assetId c = Some asset ->
  extractVideoId asset = Some videoId ->
  videoId <> "" ->
  isSuccess (api_getStatus backend videoId) = false ->
  handleRefreshVideo backend assetId c =
  (Returned tt,
   {| assets := assets c; filteredAssets := filteredAssets c;
      showUploadModal := showUploadModal c;
      selectedAssetForUpload := selectedAssetForUpload c;
      log := log c ++ [EToast checkingToast; ECallGetStatus videoId]
                   ++ caught (replyError (api_getStatus backend videoId)
                                         "Failed to get video status") |}).
Proof.
  unfold findAsset, handleRefreshVideo.
  intros Hfind Hid Hne Hfail. apply String.eqb_neq in Hne.
  unfold_async. cbn [assets log]. rewrite Hfind, Hid. cbn [truthy or_else negb].
  rewrite Hne. cbn [negb].
  destruct (api_getStatus backend videoId) as [e|data|err]; try discriminate;
    cbn; rewrite <- !app_assoc; reflexivity.
Qed.

(** The status endpoint answered, and the answer is neither a completed
    video with a url nor a failure. *)
Lemma refresh_still_processing backend assetId c asset videoId data :
  findAsset assetId c = Some asset ->
  extractVideoId asset = Some videoId ->
  videoId <> "" ->
  api_getStatus backend videoId = Success data ->
  classify data = VStillProcessing ->
  handleRefreshVideo backend assetId c =
  (Returned tt,
   {| assets := reloadedAssets backend (assets c);
      filteredAssets := reloadedAssets backend (filteredAssets c);
      showUploadModal := showUploadModal c;
      selectedAssetForUpload := selectedAssetForUpload c;
      log := log c ++ [EToast checkingToast; ECallGetStatus videoId;
                       EToast stillProcessingToast] ++ reloadEvents backend |}).
Proof.
  unfold findAsset, handleRefreshVideo, reloadedAssets, reloadEvents, classify.
  intros Hfind Hid Hne Hst Hcl. apply String.eqb_neq in Hne.
  unfold_async. cbn [assets log]. rewrite Hfind, Hid. cbn [truthy or_else negb].
  rewrite Hne. cbn [negb]. rewrite Hst.
  destruct (String.eqb (status data) "completed" && truthy (videoUrl data)); try discriminate.
  destruct (String.eqb (status data) "failed"); try discriminate.
  destruct (hook_getLibraryAssets backend) as [l|e]; cbn;
    rewrite <- !app_assoc; reflexivity.
Qed.

Lemma refresh_write_back backend assetId c asset videoId data updates t :
  findAsset assetId c = Some asset ->
  extractVideoId asset = Some videoId ->
  videoId <> "" ->
  api_getStatus backend videoId = Success data ->
  writeBack data = Some (updates, t) ->
  handleRefreshVideo backend assetId c =
  (Returned tt,
   match api_updateAsset backend assetId updates with
   | Success _ =>
       {| assets := reloadedAssets backend (applyUpdates assetId updates (assets c));
          filteredAssets := reloadedAssets backend (filteredAssets c);
          showUploadModal := showUploadModal c;
          selectedAssetForUpload := selectedAssetForUpload c;
          log := log c ++ [EToast checkingToast; ECallGetStatus videoId]
                       ++ updateEvents backend assetId updates t (assets c) |}
   | _ =>
       {| assets := assets c; filteredAssets := filteredAssets c;
          showUploadModal := showUploadModal c;
          selectedAssetForUpload := selectedAssetForUpload c;
          log := log c ++ [EToast checkingToast; ECallGetStatus videoId]
                       ++ updateEvents backend assetId updates t (assets c) |}
   end).
Proof.
  unfold findAsset, handleRefreshVideo, reloadedAssets, updateEvents, reloadEvents,
    writeBack, classify, applyUpdates.
  intros Hfind Hid Hne Hst Hwb. apply String.eqb_neq in Hne.
  unfold_async. cbn [assets log]. rewrite Hfind, Hid. cbn [truthy or_else negb].
  rewrite Hne. cbn [negb]. rewrite Hst.
  destruct (String.eqb (status data) "completed" && truthy (videoUrl data)).
  - injection Hwb as <- <-.
    destruct (api_updateAsset backend assetId _) as [e|d|err]; cbn;
      try (rewrite <- !app_assoc; reflexivity).
    destruct (hook_getLibraryAssets backend) as [l|e]; cbn;
      rewrite <- !app_assoc; reflexivity.
  - destruct (String.eqb (status data) "failed"); try discriminate.
    injection Hwb as <- <-.
    destruct (api_updateAsset backend assetId _) as [e|d|err]; cbn;
      try (rewrite <- !app_assoc; reflexivity).
    destruct (hook_getLibraryAssets backend) as [l|e]; cbn;
      rewrite <- !app_assoc; reflexivity.
Qed.

Lemma providerCall_with_id asset videoId :
  extractVideoId asset = Some videoId -> videoId <> "" ->
  providerCall asset = ECallGetStatus videoId.
Proof.
  unfold providerCall. intros -> Hne. apply String.eqb_neq in Hne. now rewrite Hne.
Qed.

Lemma providerCall_without_id asset :
  truthy (extractVideoId asset) = false -> providerCall asset = ECallRecoverPending.
Proof.
  unfold providerCall, truthy. destruct (extractVideoId asset) as [v|]; [|reflexivity].
  destruct (String.eqb v ""); [reflexivity|discriminate].
Qed.

Lemma extract_cases asset :
  truthy (extractVideoId asset) = false \/
  exists videoId, extractVideoId asset = Some videoId /\ videoId <> "".
Proof.
  destruct (extractVideoId asset) as [v|] eqn:E; [|left; reflexivity].
  destruct (String.eqb v "") eqn:Hv.
  - left. cbn. now rewrite Hv.
  - right. exists v. split; [reflexivity|]. now apply String.eqb_neq.
Qed.

(** handleRefreshVideo on an asset it finds: it never throws, and its log
    is the first toast, one call to the backend, and what follows it. *)
Lemma refresh_found backend assetId c asset :
  findAsset assetId c = Some asset ->
  fst (handleRefreshVideo backend assetId c) = Returned tt /\
  log (snd (handleRefreshVideo backend assetId c)) =
    (log c ++ EToast checkingToast :: providerCall asset
           :: afterCall backend assetId (assets c) asset)%list.
Proof.
  intros Hfind. unfold afterCall.
  destruct (extract_cases asset) as [Hno | (v & Hv & Hne)].
  - rewrite (refresh_without_id _ _ _ _ Hfind Hno), (providerCall_without_id _ Hno).
    split; [reflexivity|]. cbn [snd]. destruct (api_recoverPending backend); reflexivity.
  - rewrite (providerCall_with_id _ _ Hv Hne).
    destruct (api_getStatus backend v) as [e|data|err] eqn:Hst.
    + rewrite (refresh_status_failure _ _ _ _ _ Hfind Hv Hne) by now rewrite Hst.
      rewrite Hst. split; reflexivity.
    + destruct (writeBack data) as [[updates t]|] eqn:Hwb.
      * rewrite (refresh_write_back _ _ _ _ _ _ _ _ Hfind Hv Hne Hst Hwb).
        split; [reflexivity|]. cbn [snd].
        destruct (api_updateAsset backend assetId updates); reflexivity.
      * assert (Hcl : classify data = VStillProcessing).
        { unfold writeBack in Hwb. destruct (classify data); congruence. }
        rewrite (refresh_still_processing _ _ _ _ _ _ Hfind Hv Hne Hst Hcl).
        split; reflexivity.
    + rewrite (refresh_status_failure _ _ _ _ _ Hfind Hv Hne) by now rewrite Hst.
      rewrite Hst. split; reflexivity.
Qed.

Lemma reloadEvents_no_update backend :
  existsb isUpdateCall (reloadEvents backend) = false.
Proof. unfold reloadEvents. destruct (hook_getLibraryAssets backend); reflexivity. Qed.

(** The handler writes to the asset exactly when the status endpoint
    answered with a completed video or a failure. *)
Lemma afterCall_writes backend assetId before asset :
  existsb isUpdateCall (afterCall backend assetId before asset) = true <->
  exists videoId data,
    providerCall asset = ECallGetStatus videoId /\
    api_getStatus backend videoId = Success data /\
    classify data <> VStillProcessing.
Proof.
  unfold afterCall. split.
  - destruct (providerCall asset) eqn:Hcall;
      try (destruct (api_recoverPending backend); cbn;
           rewrite ?reloadEvents_no_update; discriminate).
    destruct (api_getStatus backend videoId) as [e|data|err] eqn:Hst; try discriminate.
    unfold writeBack. destruct (classify data) eqn:Hcl.
    + intros _. exists videoId, data. repeat split; congruence.
    + intros _. exists videoId, data. repeat split; congruence.
    + cbn. rewrite reloadEvents_no_update. discriminate.
  - intros (videoId & data & -> & -> & Hcl). unfold writeBack.
    destruct (classify data); [reflexivity|reflexivity|congruence].
Qed.

Lemma take_word_match_here s w : match_here s = Some w -> w <> "".
Proof.
  unfold match_here. destruct (match_literal_ci "video_id" s) as [[|sep rest]|]; try discriminate.
  destruct (Ascii.eqb sep ":" || Ascii.eqb sep "_"); try discriminate.
  destruct (take_word rest); [discriminate|]. intros [= <-]. discriminate.
Qed.

Lemma match_video_id_nonempty d w : match_video_id d = Some w -> w <> "".
Proof.
  induction d as [|ch d IH]; cbn [match_video_id].
  - destruct (match_here "") eqn:E; [|discriminate].
    intros [= <-]. eapply take_word_match_here, E.
  - destruct (match_here (String ch d)) eqn:E.
    + intros [= <-]. eapply take_word_match_here, E.
    + exact IH.
Qed.

(** For a video that is not in flight the id can only come from the
    description. *)
Lemma providerCall_terminal asset :
  isTerminalVideo asset = true ->
  providerCall asset =
    match str_field asset "description" with
    | Some d => match match_video_id d with
                | Some videoId => ECallGetStatus videoId
                | None => ECallRecoverPending
                end
    | None => ECallRecoverPending
    end.
Proof.
  unfold isTerminalVideo, isProcessingVideo, providerCall, extractVideoId.
  intros H. apply negb_true_iff, orb_false_iff in H as [_ H]. rewrite H, andb_false_r.
  destruct (str_field asset "description") as [d|]; [|reflexivity]. cbn [truthy].
  destruct (String.eqb d "") eqn:Hd; cbn [negb].
  - apply String.eqb_eq in Hd. subst d. reflexivity.
  - destruct (match_video_id d) as [w|] eqn:Hw; [|reflexivity].
    apply match_video_id_nonempty, String.eqb_neq in Hw. now rewrite Hw.
Qed.

(* --------------------------------------------------------------------- *)
(* C1                                                                     *)
(* --------------------------------------------------------------------- *)

(** C1, as stated, fails: handleRefreshVideo has no guard on terminal
    videos.  Asked to recheck a finished video it queries the status
    endpoint with the id found in the notes, and when the provider now
    says the job failed it writes that onto the finished row. *)
Lemma C1_counterexample :
  isTerminalVideo finishedVideo = true /\
  let r := handleRefreshVideo (answering failedStatus []) "v7" (mounted [finishedVideo]) in
  firstn 5 (log (snd r)) =
    [EToast checkingToast;
     ECallGetStatus "abc123";
     ECallUpdateAsset "v7" {| u_url := None; u_status := Some "failed" |};
     ESetAssets [<["status" := JStr "failed"]> finishedVideo];
     EToast (videoFailedToast (Some "quota exceeded"))].
Proof. split; vm_compute; reflexivity. Qed.

(** C1, amended: a recheck of a terminal video (one that is not in
    flight) is not a no-op.  handleRefreshVideo returns normally, and it
    always contacts the backend once: the status endpoint with the id
    read from the description, or the bulk recovery endpoint when the
    description holds none.  It sends an update for the asset exactly
    when the status endpoint answers with a completed video that has a
    url, or with a failure. *)
Theorem C1_terminal_job_is_rechecked backend assetId c asset :
  findAsset assetId c = Some asset ->
  isTerminalVideo asset = true ->
  let r := handleRefreshVideo backend assetId c in
  fst r = Returned tt /\
  providerCall asset =
    match str_field asset "description" with
    | Some d => match match_video_id d with
                | Some videoId => ECallGetStatus videoId
                | None => ECallRecoverPending
                end
    | None => ECallRecoverPending
    end /\
  exists rest,
    log (snd r) = (log c ++ EToast checkingToast :: providerCall asset :: rest)%list /\
    (existsb isUpdateCall rest = true <->
     exists videoId data,
       providerCall asset = ECallGetStatus videoId /\
       api_getStatus backend videoId = Success data /\
       classify data <> VStillProcessing).
Proof.
  intros Hfind Hterm r. subst r.
  destruct (refresh_found backend _ _ _ Hfind) as [Hret Hlog].
  split; [exact Hret|]. split; [apply providerCall_terminal, Hterm|].
  exists (afterCall backend assetId (assets c) asset).
  split; [exact Hlog|apply afterCall_writes].
Qed.

Lemma C1_terminal_job_is_rechecked_witness :
  findAsset "v7" (mounted [finishedVideo]) = Some finishedVideo /\
  isTerminalVideo finishedVideo = true /\
  let r := handleRefreshVideo (answering failedStatus []) "v7" (mounted [finishedVideo]) in
  fst r = Returned tt /\
  providerCall finishedVideo =
    match str_field finishedVideo "description" with
    | Some d => match match_video_id d with
                | Some videoId => ECallGetStatus videoId
                | None => ECallRecoverPending
                end
    | None => ECallRecoverPending
    end /\
  exists rest,
    log (snd r) = (log (mounted [finishedVideo])
                   ++ EToast checkingToast :: providerCall finishedVideo :: rest)%list /\
    (existsb isUpdateCall rest = true <->
     exists videoId data,
       providerCall finishedVideo = ECallGetStatus videoId /\
       api_getStatus (answering failedStatus []) videoId = Success data /\
       classify data <> VStillProcessing).
Proof.
  split; [reflexivity|]. split; [reflexivity|].
  apply (C1_terminal_job_is_rechecked (answering failedStatus []) "v7"
           (mounted [finishedVideo]) finishedVideo); reflexivity.
Defined.

(* --------------------------------------------------------------------- *)
(* C2                                                                     *)
(* --------------------------------------------------------------------- *)

(** C2, as stated, fails: a video without an extractable id is not set
    aside as unresolvable.  handleRefreshVideo turns to the bulk recovery
    endpoint, reports its counts and reloads the library, so the row the
    component holds afterwards is whatever the recovery made of it. *)
Lemma C2_counterexample :
  extractVideoId anonymousVideo = None /\
  let rows := [<["asset_url" := JStr "https://x/video.mp4"]> anonymousVideo] in
  let r := handleRefreshVideo (recovering rows) "a2" (mounted [anonymousVideo]) in
  log (snd r) =
    [EToast checkingToast;
     ECallRecoverPending;
     EToast {| title := "✅ Recovery Completed";
               description := "1 videos checked. 1 updated.";
               variant := None |};
     EConsoleLog "Loading assets from library...";
     ECallGetLibraryAssets;
     EConsoleLog "Loaded assets from library:";
     ESetAssets rows;
     ESetFilteredAssets rows] /\
  assets (snd r) = rows /\
  str_field anonymousVideo "asset_url" = Some "pending" /\
  option_map (fun a => str_field a "asset_url") (findAsset "a2" (snd r))
    = Some (Some "https://x/video.mp4").
Proof. repeat split; vm_compute; reflexivity. Qed.

(** C2, amended: for a video from which no id can be extracted (neither
    from a [pending_] url nor from the description), handleRefreshVideo
    sends no update of its own and never asks the status endpoint: it
    calls the bulk recovery endpoint instead.  When that call does not
    succeed the assets are left as they were and the error is shown in a
    toast; when it succeeds the counts are shown and the library is
    reloaded.  It returns normally either way. *)
Theorem C2_no_id_falls_back_to_bulk_recovery backend assetId c asset :
  findAsset assetId c = Some asset ->
  truthy (extractVideoId asset) = false ->
  let r := handleRefreshVideo backend assetId c in
  fst r = Returned tt /\
  exists rest,
    log (snd r) = (log c ++ EToast checkingToast :: ECallRecoverPending :: rest)%list /\
    existsb isUpdateCall rest = false /\
    existsb isProviderCall rest = false /\
    match api_recoverPending backend with
    | Success data =>
        rest = EToast (recoveryToast data) :: reloadEvents backend /\
        assets (snd r) = reloadedAssets backend (assets c)
    | reply =>
        rest = caught (replyError reply "Recovery failed") /\
        assets (snd r) = assets c /\ filteredAssets (snd r) = filteredAssets c
    end.
Proof.
  intros Hfind Hno r. subst r.
  rewrite (refresh_without_id backend _ _ _ Hfind Hno). split; [reflexivity|].
  cbn [snd].
  destruct (api_recoverPending backend) as [e|data|err]; cbn [log assets filteredAssets].
  - exists (caught e). repeat split.
  - exists (EToast (recoveryToast data) :: reloadEvents backend). repeat split.
    + cbn. apply reloadEvents_no_update.
    + cbn. unfold reloadEvents. destruct (hook_getLibraryAssets backend); reflexivity.
  - exists (caught (Error (or_else err "Recovery failed"))). repeat split.
Qed.

Lemma C2_no_id_falls_back_to_bulk_recovery_witness :
  findAsset "a2" (mounted [anonymousVideo]) = Some anonymousVideo /\
  truthy (extractVideoId anonymousVideo) = false /\
  let r := handleRefreshVideo unavailable "a2" (mounted [anonymousVideo]) in
  fst r = Returned tt /\
  exists rest,
    log (snd r) = (log (mounted [anonymousVideo])
                   ++ EToast checkingToast :: ECallRecoverPending :: rest)%list /\
    existsb isUpdateCall rest = false /\
    existsb isProviderCall rest = false /\
    match api_recoverPending unavailable with
    | Success data =>
        rest = EToast (recoveryToast data) :: reloadEvents unavailable /\
        assets (snd r) = reloadedAssets unavailable (assets (mounted [anonymousVideo]))
    | reply =>
        rest = caught (replyError reply "Recovery failed") /\
        assets (snd r) = assets (mounted [anonymousVideo]) /\
        filteredAssets (snd r) = filteredAssets (mounted [anonymousVideo])
    end.
Proof.
  split; [reflexivity|]. split; [reflexivity|].
  apply (C2_no_id_falls_back_to_bulk_recovery unavailable "a2"
           (mounted [anonymousVideo]) anonymousVideo); reflexivity.
Defined.

(* --------------------------------------------------------------------- *)
(* The row written by updateAsset                                         *)
(* --------------------------------------------------------------------- *)

Lemma spread_lookup asset updates k :
  spread asset updates !! k =
    match updates_obj updates !! k with
    | Some v => Some v
    | None => asset !! k
    end.
Proof.
  unfold spread. rewrite lookup_union.
  destruct (updates_obj updates !! k), (asset !! k); reflexivity.
Qed.

Lemma spread_completed asset location :
  let row := spread asset {| u_url := Some location; u_status := Some "completed" |} in
  row !! "url" = Some (JStr location) /\
  row !! "status" = Some (JStr "completed") /\
  forall k, k <> "url" -> k <> "status" -> row !! k = asset !! k.
Proof.
  cbn zeta. repeat split; intros; rewrite spread_lookup; cbn [updates_obj u_url u_status].
  - now rewrite lookup_insert_eq.
  - rewrite lookup_insert_ne by discriminate. now rewrite lookup_singleton_eq.
  - rewrite lookup_insert_ne by congruence. now rewrite lookup_singleton_ne by congruence.
Qed.

Lemma spread_failed asset :
  let row := spread asset {| u_url := None; u_status := Some "failed" |} in
  row !! "status" = Some (JStr "failed") /\
  forall k, k <> "status" -> row !! k = asset !! k.
Proof.
  cbn zeta. split; intros; rewrite spread_lookup; cbn [updates_obj u_url u_status].
  - now rewrite lookup_singleton_eq.
  - now rewrite lookup_singleton_ne by congruence.
Qed.

Lemma found_is_updated assetId c asset updates :
  findAsset assetId c = Some asset ->
  In (spread asset updates) (applyUpdates assetId updates (assets c)).
Proof.
  unfold findAsset, applyUpdates. intros Hfind.
  apply List.find_some in Hfind as [Hin Hid].
  apply in_map_iff. exists asset. now rewrite Hid.
Qed.

Lemma classify_completed data location :
  status data = "completed" -> videoUrl data = Some location -> location <> "" ->
  writeBack data = Some ({| u_url := Some location; u_status := Some "completed" |},
                         videoReadyToast).
Proof.
  unfold writeBack, classify. intros -> -> Hne. apply String.eqb_neq in Hne.
  cbn. now rewrite Hne.
Qed.

Lemma classify_failed data :
  status data = "failed" ->
  writeBack data = Some ({| u_url := None; u_status := Some "failed" |},
                         videoFailedToast (errorMessage data)).
Proof. unfold writeBack, classify. now intros ->. Qed.

(** The log of a status answer that is written back, spelled out. *)
Lemma refresh_write_back_log backend assetId c asset videoId data updates t :
  findAsset assetId c = Some asset ->
  extractVideoId asset = Some videoId ->
  videoId <> "" ->
  api_getStatus backend videoId = Success data ->
  writeBack data = Some (updates, t) ->
  let r := handleRefreshVideo backend assetId c in
  fst r = Returned tt /\
  exists rest,
    log (snd r) = (log c ++ [EToast checkingToast; ECallGetStatus videoId;
                             ECallUpdateAsset assetId updates] ++ rest)%list /\
    existsb isUpdateCall rest = false /\
    match api_updateAsset backend assetId updates with
    | Success _ =>
        rest = ESetAssets (applyUpdates assetId updates (assets c)) :: EToast t
               :: reloadEvents backend /\
        assets (snd r) = reloadedAssets backend (applyUpdates assetId updates (assets c))
    | reply =>
        rest = EConsoleError "Failed to update asset:"
                 (replyError reply "Failed to update asset")
               :: caught (replyError reply "Failed to update asset") /\
        assets (snd r) = assets c
    end.
Proof.
  intros Hfind Hid Hne Hst Hwb r. subst r.
  rewrite (refresh_write_back backend _ _ _ _ _ _ _ Hfind Hid Hne Hst Hwb).
  split; [reflexivity|]. cbn [snd]. unfold updateEvents.
  destruct (api_updateAsset backend assetId updates) as [e|row|err]; cbn [log assets].
  - eexists. split; [reflexivity|]. split; [reflexivity|]. split; reflexivity.
  - eexists. split; [reflexivity|]. split; [|split; reflexivity].
    cbn. apply reloadEvents_no_update.
  - eexists. split; [reflexivity|]. split; [reflexivity|]. split; reflexivity.
Qed.

(* --------------------------------------------------------------------- *)
(* C3                                                                     *)
(* --------------------------------------------------------------------- *)

(** C3, as stated, fails on two counts.  The write for a completed video
    carries [url] and [status] and nothing else, so a message left on the
    row by an earlier attempt is still there afterwards; and the handler
    returns nothing: what it shows for a job that was pending and for one
    that was processing is the same, the previous state is not reported. *)
Lemma C3_counterexample :
  let backend := answering completedStatus [] in
  let r1 := handleRefreshVideo backend "a1" (mounted [retriedVideo]) in
  let r2 := handleRefreshVideo backend "a1" (mounted [processingVideo]) in
  let row := <["url" := JStr "https://x/video.mp4"]>
               (<["status" := JStr "completed"]> retriedVideo) in
  firstn 5 (log (snd r1)) =
    [EToast checkingToast;
     ECallGetStatus "ext-9";
     ECallUpdateAsset "a1" {| u_url := Some "https://x/video.mp4";
                              u_status := Some "completed" |};
     ESetAssets [row];
     EToast videoReadyToast] /\
  row !! "errorMessage" = Some (JStr "previous attempt timed out") /\
  str_field retriedVideo "asset_url" = Some "pending_ext-9" /\
  str_field processingVideo "asset_url" = Some "processing" /\
  fst r1 = Returned tt /\ fst r2 = Returned tt /\
  toastsOf (log (snd r1)) = toastsOf (log (snd r2)).
Proof. repeat split; vm_compute; reflexivity. Qed.

(** C3, amended: for every asset handleRefreshVideo finds with a video id
    (whatever its current state), when the status endpoint answers
    [completed] with a non-empty [videoUrl], the handler sends one update
    for the asset, [{url: videoUrl, status: 'completed'}].  When the
    backend accepts it the row held by the component gets these two
    properties and keeps every other one as it was (no error message is
    cleared), the "Video Ready" toast is shown and the library is
    reloaded; when it does not, the assets stay as they were.  The
    handler returns normally and returns no outcome value. *)
Theorem C3_completed_is_written_back backend assetId c asset videoId data location :
  findAsset assetId c = Some asset ->
  extractVideoId asset = Some videoId ->
  videoId <> "" ->
  api_getStatus backend videoId = Success data ->
  status data = "completed" ->
  videoUrl data = Some location ->
  location <> "" ->
  let updates := {| u_url := Some location; u_status := Some "completed" |} in
  let r := handleRefreshVideo backend assetId c in
  fst r = Returned tt /\
  (exists rest,
     log (snd r) = (log c ++ [EToast checkingToast; ECallGetStatus videoId;
                              ECallUpdateAsset assetId updates] ++ rest)%list /\
     existsb isUpdateCall rest = false /\
     match api_updateAsset backend assetId updates with
     | Success _ =>
         rest = ESetAssets (applyUpdates assetId updates (assets c))
                :: EToast videoReadyToast :: reloadEvents backend /\
         assets (snd r) = reloadedAssets backend (applyUpdates assetId updates (assets c))
     | reply =>
         rest = EConsoleError "Failed to update asset:"
                  (replyError reply "Failed to update asset")
                :: caught (replyError reply "Failed to update asset") /\
         assets (snd r) = assets c
     end) /\
  In (spread asset updates) (applyUpdates assetId updates (assets c)) /\
  spread asset updates !! "url" = Some (JStr location) /\
  spread asset updates !! "status" = Some (JStr "completed") /\
  (forall k, k <> "url" -> k <> "status" -> spread asset updates !! k = asset !! k).
Proof.
  intros Hfind Hid Hne Hst Hdone Hurl Hloc updates r.
  pose proof (classify_completed _ _ Hdone Hurl Hloc) as Hwb.
  destruct (refresh_write_back_log backend _ _ _ _ _ _ _ Hfind Hid Hne Hst Hwb)
    as [Hret Hlog].
  split; [exact Hret|]. split; [exact Hlog|].
  split; [apply found_is_updated, Hfind|]. apply spread_completed.
Qed.

Lemma C3_completed_is_written_back_witness :
  let backend := answering completedStatus [] in
  let c := mounted [pendingVideo] in
  findAsset "a1" c = Some pendingVideo /\
  extractVideoId pendingVideo = Some "ext-9" /\
  "ext-9" <> "" /\
  api_getStatus backend "ext-9" = Success completedStatus /\
  status completedStatus = "completed" /\
  videoUrl completedStatus = Some "https://x/video.mp4" /\
  "https://x/video.mp4" <> "" /\
  let updates := {| u_url := Some "https://x/video.mp4"; u_status := Some "completed" |} in
  let r := handleRefreshVideo backend "a1" c in
  fst r = Returned tt /\
  (exists rest,
     log (snd r) = (log c ++ [EToast checkingToast; ECallGetStatus "ext-9";
                              ECallUpdateAsset "a1" updates] ++ rest)%list /\
     existsb isUpdateCall rest = false /\
     match api_updateAsset backend "a1" updates with
     | Success _ =>
         rest = ESetAssets (applyUpdates "a1" updates (assets c))
                :: EToast videoReadyToast :: reloadEvents backend /\
         assets (snd r) = reloadedAssets backend (applyUpdates "a1" updates (assets c))
     | reply =>
         rest = EConsoleError "Failed to update asset:"
                  (replyError reply "Failed to update asset")
                :: caught (replyError reply "Failed to update asset") /\
         assets (snd r) = assets c
     end) /\
  In (spread pendingVideo updates) (applyUpdates "a1" updates (assets c)) /\
  spread pendingVideo updates !! "url" = Some (JStr "https://x/video.mp4") /\
  spread pendingVideo updates !! "status" = Some (JStr "completed") /\
  (forall k, k <> "url" -> k <> "status" ->
             spread pendingVideo updates !! k = pendingVideo !! k).
Proof.
  cbn zeta.
  split; [reflexivity|]. split; [reflexivity|]. split; [discriminate|].
  split; [reflexivity|]. split; [reflexivity|]. split; [reflexivity|].
  split; [discriminate|].
  apply (C3_completed_is_written_back (answering completedStatus []) "a1"
           (mounted [pendingVideo]) pendingVideo "ext-9" completedStatus
           "https://x/video.mp4"); try reflexivity; discriminate.
Defined.

(* --------------------------------------------------------------------- *)
(* C4                                                                     *)
(* --------------------------------------------------------------------- *)

(** C4, as stated, fails: the provider's error message is shown in a
    toast and is not stored.  The update sent for a failed job is
    [{status: 'failed'}]; the row afterwards has no [errorMessage] and no
    property holding the message. *)
Lemma C4_counterexample :
  let r := handleRefreshVideo (answering failedStatus []) "a1" (mounted [pendingVideo]) in
  let row := <["status" := JStr "failed"]> pendingVideo in
  errorMessage failedStatus = Some "quota exceeded" /\
  firstn 5 (log (snd r)) =
    [EToast checkingToast;
     ECallGetStatus "ext-9";
     ECallUpdateAsset "a1" {| u_url := None; u_status := Some "failed" |};
     ESetAssets [row];
     EToast {| title := "❌ Video Failed"; description := "quota exceeded";
               variant := Some "destructive" |}] /\
  row !! "errorMessage" = None /\
  List.existsb (fun kv => bool_decide (kv.2 = JStr "quota exceeded")) (map_to_list row) = false.
Proof. repeat split; vm_compute; reflexivity. Qed.

(** C4, amended: for every asset handleRefreshVideo finds with a video id
    (whatever its current state), when the status endpoint answers
    [failed], the handler sends one update for the asset,
    [{status: 'failed'}].  When the backend accepts it the row held by the
    component gets [status = 'failed'] and keeps every other property as
    it was.  The provider's error message, or "Video generation failed."
    when there is none, goes into the "Video Failed" toast; it is not
    written to the row. *)
Theorem C4_failed_is_written_back backend assetId c asset videoId data :
  findAsset assetId c = Some asset ->
  extractVideoId asset = Some videoId ->
  videoId <> "" ->
  api_getStatus backend videoId = Success data ->
  status data = "failed" ->
  let updates := {| u_url := None; u_status := Some "failed" |} in
  let shown := {| title := "❌ Video Failed";
                  description := or_else (errorMessage data) "Video generation failed.";
                  variant := Some "destructive" |} in
  let r := handleRefreshVideo backend assetId c in
  fst r = Returned tt /\
  (exists rest,
     log (snd r) = (log c ++ [EToast checkingToast; ECallGetStatus videoId;
                              ECallUpdateAsset assetId updates] ++ rest)%list /\
     existsb isUpdateCall rest = false /\
     match api_updateAsset backend assetId updates with
     | Success _ =>
         rest = ESetAssets (applyUpdates assetId updates (assets c))
                :: EToast shown :: reloadEvents backend /\
         assets (snd r) = reloadedAssets backend (applyUpdates assetId updates (assets c))
     | reply =>
         rest = EConsoleError "Failed to update asset:"
                  (replyError reply "Failed to update asset")
                :: caught (replyError reply "Failed to update asset") /\
         assets (snd r) = assets c
     end) /\
  In (spread asset updates) (applyUpdates assetId updates (assets c)) /\
  spread asset updates !! "status" = Some (JStr "failed") /\
  (forall k, k <> "status" -> spread asset updates !! k = asset !! k).
Proof.
  intros Hfind Hid Hne Hst Hfailed updates shown r.
  pose proof (classify_failed _ Hfailed) as Hwb.
  destruct (refresh_write_back_log backend _ _ _ _ _ _ _ Hfind Hid Hne Hst Hwb)
    as [Hret Hlog].
  split; [exact Hret|]. split; [exact Hlog|].
  split; [apply found_is_updated, Hfind|]. apply spread_failed.
Qed.

Lemma C4_failed_is_written_back_witness :
  let backend := answering failedStatus [] in
  let c := mounted [pendingVideo] in
  findAsset "a1" c = Some pendingVideo /\
  extractVideoId pendingVideo = Some "ext-9" /\
  "ext-9" <> "" /\
  api_getStatus backend "ext-9" = Success failedStatus /\
  status failedStatus = "failed" /\
  let updates := {| u_url := None; u_status := Some "failed" |} in
  let shown := {| title := "❌ Video Failed";
                  description := or_else (errorMessage failedStatus) "Video generation failed.";
                  variant := Some "destructive" |} in
  let r := handleRefreshVideo backend "a1" c in
  fst r = Returned tt /\
  (exists rest,
     log (snd r) = (log c ++ [EToast checkingToast; ECallGetStatus "ext-9";
                              ECallUpdateAsset "a1" updates] ++ rest)%list /\
     existsb isUpdateCall rest = false /\
     match api_updateAsset backend "a1" updates with
     | Success _ =>
         rest = ESetAssets (applyUpdates "a1" updates (assets c))
                :: EToast shown :: reloadEvents backend /\
         assets (snd r) = reloadedAssets backend (applyUpdates "a1" updates (assets c))
     | reply =>
         rest = EConsoleError "Failed to update asset:"
                  (replyError reply "Failed to update asset")
                :: caught (replyError reply "Failed to update asset") /\
         assets (snd r) = assets c
     end) /\
  In (spread pendingVideo updates) (applyUpdates "a1" updates (assets c)) /\
  spread pendingVideo updates !! "status" = Some (JStr "failed") /\
  (forall k, k <> "status" -> spread pendingVideo updates !! k = pendingVideo !! k).
Proof.
  cbn zeta.
  split; [reflexivity|]. split; [reflexivity|]. split; [discriminate|].
  split; [reflexivity|]. split; [reflexivity|].
  apply (C4_failed_is_written_back (answering failedStatus []) "a1"
           (mounted [pendingVideo]) pendingVideo "ext-9" failedStatus);
    try reflexivity; discriminate.
Defined.

(* --------------------------------------------------------------------- *)
(* C5                                                                     *)
(* --------------------------------------------------------------------- *)

(** C5, as stated, fails: a pending job that the provider reports as
    being processed is not moved to processing.  The handler shows the
    "Still Processing" toast and reloads the library; no update is sent. *)
Lemma C5_counterexample :
  let r := handleRefreshVideo (answering processingStatus [pendingVideo]) "a1"
             (mounted [pendingVideo]) in
  str_field pendingVideo "asset_url" = Some "pending_ext-9" /\
  log (snd r) =
    [EToast checkingToast;
     ECallGetStatus "ext-9";
     EToast stillProcessingToast;
     EConsoleLog "Loading assets from library...";
     ECallGetLibraryAssets;
     EConsoleLog "Loaded assets from library:";
     ESetAssets [pendingVideo];
     ESetFilteredAssets [pendingVideo]] /\
  existsb isUpdateCall (log (snd r)) = false.
Proof. repeat split; vm_compute; reflexivity. Qed.

(** C5, amended: for every asset handleRefreshVideo finds with a video
    id, when the status endpoint answers with anything that is neither
    [completed] with a non-empty url nor [failed], the handler sends no
    update, whatever the current state of the job (a pending job is not
    moved to processing).  It shows the "Still Processing" toast and
    reloads the library; nothing of the progress display is part of it. *)
Theorem C5_still_processing_writes_nothing backend assetId c asset videoId data :
  findAsset assetId c = Some asset ->
  extractVideoId asset = Some videoId ->
  videoId <> "" ->
  api_getStatus backend videoId = Success data ->
  classify data = VStillProcessing ->
  let r := handleRefreshVideo backend assetId c in
  let added := ([EToast checkingToast; ECallGetStatus videoId; EToast stillProcessingToast]
                ++ reloadEvents backend)%list in
  fst r = Returned tt /\
  log (snd r) = (log c ++ added)%list /\
  existsb isUpdateCall added = false /\
  assets (snd r) = reloadedAssets backend (assets c).
Proof.
  intros Hfind Hid Hne Hst Hcl r added. subst r added.
  rewrite (refresh_still_processing backend _ _ _ _ _ Hfind Hid Hne Hst Hcl).
  repeat split. cbn. apply reloadEvents_no_update.
Qed.

Lemma C5_still_processing_writes_nothing_witness :
  let backend := answering processingStatus [pendingVideo] in
  let c := mounted [pendingVideo] in
  findAsset "a1" c = Some pendingVideo /\
  extractVideoId pendingVideo = Some "ext-9" /\
  "ext-9" <> "" /\
  api_getStatus backend "ext-9" = Success processingStatus /\
  classify processingStatus = VStillProcessing /\
  let r := handleRefreshVideo backend "a1" c in
  let added := ([EToast checkingToast; ECallGetStatus "ext-9"; EToast stillProcessingToast]
                ++ reloadEvents backend)%list in
  fst r = Returned tt /\
  log (snd r) = (log c ++ added)%list /\
  existsb isUpdateCall added = false /\
  assets (snd r) = reloadedAssets backend (assets c).
Proof.
  cbn zeta.
  split; [reflexivity|]. split; [reflexivity|]. split; [discriminate|].
  split; [reflexivity|]. split; [reflexivity|].
  apply (C5_still_processing_writes_nothing (answering processingStatus [pendingVideo])
           "a1" (mounted [pendingVideo]) pendingVideo "ext-9" processingStatus);
    try reflexivity; discriminate.
Defined.

(* --------------------------------------------------------------------- *)
(* C6                                                                     *)
(* --------------------------------------------------------------------- *)

(** A failed call leaves the component as it was, but for the log. *)
Lemma refresh_call_failed backend assetId c asset e :
  findAsset assetId c = Some asset ->
  providerFailure backend asset = Some e ->
  handleRefreshVideo backend assetId c =
  (Returned tt,
   {| assets := assets c; filteredAssets := filteredAssets c;
      showUploadModal := showUploadModal c;
      selectedAssetForUpload := selectedAssetForUpload c;
      log := log c ++ [EToast checkingToast; providerCall asset] ++ caught e |}).
Proof.
  intros Hfind. unfold providerFailure.
  destruct (extract_cases asset) as [Hno | (v & Hv & Hne)].
  - rewrite (refresh_without_id _ _ _ _ Hfind Hno), (providerCall_without_id _ Hno).
    destruct (api_recoverPending backend); cbn; intros [= <-]; reflexivity.
  - rewrite (providerCall_with_id _ _ Hv Hne). intros Hfail.
    rewrite (refresh_status_failure _ _ _ _ _ Hfind Hv Hne).
    + destruct (api_getStatus backend v); cbn in *; now inversion Hfail.
    + destruct (api_getStatus backend v); [reflexivity|discriminate|reflexivity].
Qed.

(** C6, as stated, fails: no retryable outcome is returned.  The handler
    returns nothing, and what it shows for a transient failure (the
    request rejected with a 503) has the same title and variant as what
    it shows for a failure no retry will mend (the provider does not know
    the id) and for an asset it does not find; only the message differs. *)
Lemma C6_counterexample :
  let shown := fun r : Completion unit * Component =>
                 List.map (fun t => (title t, variant t)) (toastsOf (log (snd r))) in
  let transient := handleRefreshVideo unavailable "a1" (mounted [pendingVideo]) in
  let permanent := handleRefreshVideo unknownToProvider "a1" (mounted [pendingVideo]) in
  let missing := handleRefreshVideo unavailable "zz" (mounted [pendingVideo]) in
  api_getStatus unavailable "ext-9" = Rejected (Error "Request failed with status code 503") /\
  api_getStatus unknownToProvider "ext-9" = Failure (Some "Video not found") /\
  fst transient = Returned tt /\ fst permanent = Returned tt /\ fst missing = Returned tt /\
  shown transient = [("Checking Video Status", None);
                     ("Failed to Get Video Status", Some "destructive")] /\
  shown permanent = shown transient /\
  shown missing = shown transient.
Proof. repeat split; vm_compute; reflexivity. Qed.

(** C6, amended: when the call handleRefreshVideo makes for a job fails
    (the request is rejected, as on a network failure or a 503, or the
    answer is not a success), the handler catches the error: it returns
    normally, sends no update and does not reload, so the assets it holds
    are the ones it held before (a job in flight stays in flight).  It
    returns no outcome value: the failure is shown as the "Failed to Get
    Video Status" toast carrying the error's message, and two failures
    with the same message, transient or not, are shown alike. *)
Theorem C6_transient_error_changes_nothing backend assetId c asset e :
  findAsset assetId c = Some asset ->
  providerFailure backend asset = Some e ->
  let r := handleRefreshVideo backend assetId c in
  let added := [EToast checkingToast; providerCall asset;
                EConsoleError "Error getting video status:" e;
                EToast {| title := "Failed to Get Video Status";
                          description := or_else (Some (message e))
                                           "Could not retrieve video status from HeyGen.";
                          variant := Some "destructive" |}] in
  fst r = Returned tt /\
  assets (snd r) = assets c /\
  filteredAssets (snd r) = filteredAssets c /\
  log (snd r) = (log c ++ added)%list /\
  existsb isUpdateCall added = false /\
  (isProcessingVideo asset = true ->
   exists still, findAsset assetId (snd r) = Some still /\ isProcessingVideo still = true) /\
  (forall backend' e',
     providerFailure backend' asset = Some e' ->
     message e' = message e ->
     let r' := handleRefreshVideo backend' assetId c in
     fst r' = fst r /\
     assets (snd r') = assets (snd r) /\
     toastsOf (log (snd r')) = toastsOf (log (snd r))).
Proof.
  intros Hfind Hfail r added. subst r added.
  rewrite (refresh_call_failed backend _ _ _ _ Hfind Hfail).
  cbn [fst snd assets filteredAssets log].
  repeat split.
  - unfold providerCall. destruct (extractVideoId asset) as [v|]; [|reflexivity].
    destruct (String.eqb v ""); reflexivity.
  - intros Hflight. exists asset. split; [exact Hfind|exact Hflight].
  - rewrite (refresh_call_failed backend' _ _ _ _ Hfind H). reflexivity.
  - rewrite (refresh_call_failed backend' _ _ _ _ Hfind H). reflexivity.
  - rewrite (refresh_call_failed backend' _ _ _ _ Hfind H). cbn [snd log].
    unfold toastsOf, caught, statusFailureToast.
    rewrite !List.flat_map_app. cbn. now rewrite H0.
Qed.

Lemma C6_transient_error_changes_nothing_witness :
  let e := Error "Request failed with status code 503" in
  let c := mounted [pendingVideo] in
  findAsset "a1" c = Some pendingVideo /\
  api_getStatus unavailable "ext-9" = Rejected e /\
  providerFailure unavailable pendingVideo = Some e /\
  let r := handleRefreshVideo unavailable "a1" c in
  let added := [EToast checkingToast; providerCall pendingVideo;
                EConsoleError "Error getting video status:" e;
                EToast {| title := "Failed to Get Video Status";
                          description := or_else (Some (message e))
                                           "Could not retrieve video status from HeyGen.";
                          variant := Some "destructive" |}] in
  fst r = Returned tt /\
  assets (snd r) = assets c /\
  filteredAssets (snd r) = filteredAssets c /\
  log (snd r) = (log c ++ added)%list /\
  existsb isUpdateCall added = false /\
  (isProcessingVideo pendingVideo = true ->
   exists still, findAsset "a1" (snd r) = Some still /\ isProcessingVideo still = true) /\
  (forall backend' e',
     providerFailure backend' pendingVideo = Some e' ->
     message e' = message e ->
     let r' := handleRefreshVideo backend' "a1" c in
     fst r' = fst r /\
     assets (snd r') = assets (snd r) /\
     toastsOf (log (snd r')) = toastsOf (log (snd r))).
Proof.
  cbn zeta.
  split; [reflexivity|]. split; [reflexivity|]. split; [reflexivity|].
  apply (C6_transient_error_changes_nothing unavailable "a1" (mounted [pendingVideo])
           pendingVideo (Error "Request failed with status code 503")); reflexivity.
Defined.

(* --------------------------------------------------------------------- *)
(* C10                                                                    *)
(* --------------------------------------------------------------------- *)

Lemma placeholder_facts externalId :
  let s := "pending_" ++ externalId in
  String.eqb s "" = false /\ String.eqb s "processing" = false /\
  String.eqb s "pending" = false /\ startsWith s "pending_" = true.
Proof.
  cbn. repeat split. unfold startsWith. cbn. destruct externalId; reflexivity.
Qed.

(** C10: a video whose url is the placeholder [pending_<externalId>] is
    in flight for the progress simulation and for the "Recover Videos"
    button, and yet passes the guard of handleUpload: the upload modal is
    opened for it and no "Upload Not Available" toast is shown.  The
    guard turns away a video with a url only when the url is exactly
    ['processing'] or ['pending']. *)
Theorem C10_upload_gate_admits_placeholder asset externalId c :
  field_is asset "asset_type" "video" = true ->
  str_field asset "asset_url" = Some ("pending_" ++ externalId) ->
  isProcessingVideo asset = true /\
  (field_is asset "source_system" "heygen" = true ->
   hasPendingHeyGenVideos [asset] = true) /\
  uploadable asset = true /\
  handleUpload asset c =
    (Returned tt,
     {| assets := assets c; filteredAssets := filteredAssets c;
        showUploadModal := true; selectedAssetForUpload := Some asset;
        log := log c ++ [ESetSelectedAssetForUpload (Some asset);
                         ESetShowUploadModal true] |}) /\
  (forall other,
     field_is other "asset_type" "video" = true ->
     truthy (str_field other "asset_url") = true ->
     (uploadable other = false <->
      field_is other "asset_url" "processing" = true \/
      field_is other "asset_url" "pending" = true)).
Proof.
  intros Htype Hurl.
  destruct (placeholder_facts externalId) as (He & Hp & Hq & Hs).
  assert (Hup : uploadable asset = true).
  { unfold uploadable, field_is. rewrite Hurl. unfold field_is in Htype.
    rewrite Htype. cbn [truthy]. cbn zeta in *. now rewrite He, Hp, Hq. }
  assert (Hfl : field_startsWith asset "asset_url" "pending_" = true).
  { unfold field_startsWith. now rewrite Hurl. }
  split. { unfold isProcessingVideo. rewrite Hfl. apply orb_true_r. }
  split. { intros Hsrc. unfold hasPendingHeyGenVideos. cbn [existsb].
           rewrite Hsrc, Hfl. now rewrite !orb_true_r. }
  split; [exact Hup|].
  split.
  { unfold handleUpload. rewrite Hup. unfold_async. cbn.
    rewrite <- app_assoc. reflexivity. }
  intros other Ho Ht. unfold uploadable. rewrite Ho, Ht. cbn [andb].
  destruct (field_is other "asset_url" "processing"),
           (field_is other "asset_url" "pending"); cbn; intuition congruence.
Qed.

Lemma C10_upload_gate_admits_placeholder_witness :
  let c := mounted [pendingVideo] in
  field_is pendingVideo "asset_type" "video" = true /\
  str_field pendingVideo "asset_url" = Some ("pending_" ++ "ext-9") /\
  isProcessingVideo pendingVideo = true /\
  (field_is pendingVideo "source_system" "heygen" = true ->
   hasPendingHeyGenVideos [pendingVideo] = true) /\
  uploadable pendingVideo = true /\
  handleUpload pendingVideo c =
    (Returned tt,
     {| assets := assets c; filteredAssets := filteredAssets c;
        showUploadModal := true; selectedAssetForUpload := Some pendingVideo;
        log := log c ++ [ESetSelectedAssetForUpload (Some pendingVideo);
                         ESetShowUploadModal true] |}) /\
  (forall other,
     field_is other "asset_type" "video" = true ->
     truthy (str_field other "asset_url") = true ->
     (uploadable other = false <->
      field_is other "asset_url" "processing" = true \/
      field_is other "asset_url" "pending" = true)).
Proof.
  cbn zeta. split; [reflexivity|]. split; [reflexivity|].
  apply (C10_upload_gate_admits_placeholder pendingVideo "ext-9" (mounted [pendingVideo]));
    reflexivity.
Defined.

(* --------------------------------------------------------------------- *)
(* C8                                                                     *)
(* --------------------------------------------------------------------- *)

Local Open Scope Q_scope.

Lemma linear_part t : t / totalDuration * targetProgress == t * (92 # 300).
Proof. unfold totalDuration, targetProgress. field. Qed.

(** The branch on [elapsedTime >= totalDuration] changes nothing: the
    linear part is already at the target there. *)
Lemma newProgress_min t : newProgress t == Qmin targetProgress (t * (92 # 300)).
Proof.
  unfold newProgress. destruct (Qle_bool totalDuration t) eqn:Hle.
  - apply Qle_bool_iff in Hle. symmetry. apply Q.min_l.
    unfold totalDuration, targetProgress in *. lra.
  - now rewrite linear_part.
Qed.

Lemma newProgress_monotone t1 t2 : t1 <= t2 -> newProgress t1 <= newProgress t2.
Proof.
  intros H. rewrite !newProgress_min. apply Q.min_le_compat_l. lra.
Qed.

(** C8: the progress computed at lines 86-93 is the estimator
    [min(cap, t / totalDuration * cap)] on elapsed seconds [t >= 0], with
    [cap = 92 < 100] and [totalDuration = 300]; it is 0 at 0,
    non-decreasing, within [0, cap], and equal to [cap] from
    [totalDuration] on. *)
Theorem C8_progress_estimator :
  targetProgress == 92 /\ targetProgress < 100 /\ totalDuration == 300 /\
  (forall t, 0 <= t -> newProgress t == estimate_spec targetProgress totalDuration t) /\
  newProgress 0 == 0 /\
  (forall t1 t2, 0 <= t1 -> t1 <= t2 -> newProgress t1 <= newProgress t2) /\
  (forall t, 0 <= t -> 0 <= newProgress t /\ newProgress t <= targetProgress) /\
  (forall t, totalDuration <= t -> newProgress t == targetProgress).
Proof.
  split; [reflexivity|]. split; [reflexivity|]. split; [reflexivity|].
  split.
  { intros t _. unfold estimate_spec. now rewrite newProgress_min, linear_part. }
  split; [reflexivity|].
  split. { intros t1 t2 _ H. now apply newProgress_monotone. }
  split.
  { intros t Ht. rewrite newProgress_min. split.
    - apply Q.min_glb; unfold targetProgress; lra.
    - apply Q.le_min_l. }
  intros t Ht. unfold newProgress.
  apply Qle_bool_iff in Ht. now rewrite Ht.
Qed.

Lemma C8_progress_estimator_witness :
  0 <= 150 /\ 150 <= 450 /\ totalDuration <= 450 /\
  newProgress 150 == estimate_spec targetProgress totalDuration 150 /\
  newProgress 150 <= newProgress 450 /\
  (0 <= newProgress 150 /\ newProgress 150 <= targetProgress) /\
  newProgress 450 == targetProgress.
Proof.
  split; [discriminate|]. split; [discriminate|]. split; [discriminate|].
  destruct C8_progress_estimator as (_ & _ & _ & Hspec & _ & Hmono & Hrange & Hcap).
  split; [apply Hspec; discriminate|].
  split; [apply Hmono; discriminate|].
  split; [apply Hrange; discriminate|].
  apply Hcap. discriminate.
Defined.

(* --------------------------------------------------------------------- *)
(* C9                                                                     *)
(* --------------------------------------------------------------------- *)







Local Close Scope Q_scope.

(* --------------------------------------------------------------------- *)
(* C7                                                                     *)
(* --------------------------------------------------------------------- *)







Example bulk_recovery_of_four :
  List.map Reconciler.outcome (fst (Reconciler.recoverAll downForThird fourJobs))
  = [Reconciler.OutcomeCompleted; Reconciler.OutcomeCompleted;
     Reconciler.Retryable; Reconciler.OutcomeCompleted].
Proof. reflexivity. Qed.

(* ===================================================================== *)
(* Further properties of the component                                    *)
(* ===================================================================== *)

(* --------------------------------------------------------------------- *)
(* handleRefreshVideo as a whole                                          *)
(* --------------------------------------------------------------------- *)

Lemma reloadEvents_no_provider_call backend :
  countOf isProviderCall (reloadEvents backend) = 0%nat.
Proof. unfold reloadEvents. destruct (hook_getLibraryAssets backend); reflexivity. Qed.

Lemma reloadEvents_count_update backend :
  countOf isUpdateCall (reloadEvents backend) = 0%nat.
Proof. unfold reloadEvents. destruct (hook_getLibraryAssets backend); reflexivity. Qed.

Lemma countOf_cons p e l :
  countOf p (e :: l) = ((if p e then 1 else 0) + countOf p l)%nat.
Proof. unfold countOf. cbn. destruct (p e); reflexivity. Qed.

(** Whatever the asset list, the id and the answers of the backend,
    handleRefreshVideo returns normally, leaves the upload modal alone,
    and sends at most one request about video status (getStatus or
    recoverPending) and at most one update; an update is only ever sent
    after a status request. *)
Theorem refresh_never_throws_one_call backend assetId c :
  let r := handleRefreshVideo backend assetId c in
  fst r = Returned tt /\
  showUploadModal (snd r) = showUploadModal c /\
  selectedAssetForUpload (snd r) = selectedAssetForUpload c /\
  exists added,
    log (snd r) = (log c ++ added)%list /\
    (countOf isProviderCall added <= 1)%nat /\
    (countOf isUpdateCall added <= countOf isProviderCall added)%nat.
Proof.
  cbn zeta. destruct (findAsset assetId c) as [asset|] eqn:Hfind.
  2:{ rewrite (refresh_not_found backend _ _ Hfind). cbn [fst snd showUploadModal
        selectedAssetForUpload log]. repeat split. eexists. split; [reflexivity|].
      cbn. lia. }
  destruct (extract_cases asset) as [Hno | (v & Hv & Hne)].
  - rewrite (refresh_without_id backend _ _ _ Hfind Hno).
    destruct (api_recoverPending backend) as [e|data|err];
      cbn [fst snd showUploadModal selectedAssetForUpload log]; repeat split;
      eexists; (split; [reflexivity|]);
      rewrite ?app_comm_cons; cbn [app]; rewrite !countOf_cons;
      rewrite ?reloadEvents_no_provider_call, ?reloadEvents_count_update; cbn; lia.
  - destruct (api_getStatus backend v) as [e|data|err] eqn:Hst.
    + rewrite (refresh_status_failure backend _ _ _ _ Hfind Hv Hne) by now rewrite Hst.
      cbn [fst snd showUploadModal selectedAssetForUpload log]. repeat split.
      eexists. split; [reflexivity|]. cbn. lia.
    + destruct (writeBack data) as [[updates t]|] eqn:Hwb.
      * rewrite (refresh_write_back backend _ _ _ _ _ _ _ Hfind Hv Hne Hst Hwb).
        unfold updateEvents.
        destruct (api_updateAsset backend assetId updates) as [e|row|err];
          cbn [fst snd showUploadModal selectedAssetForUpload log]; repeat split;
          eexists; (split; [reflexivity|]);
          cbn [app]; rewrite !countOf_cons;
          rewrite ?reloadEvents_no_provider_call, ?reloadEvents_count_update; cbn; lia.
      * assert (Hcl : classify data = VStillProcessing).
        { unfold writeBack in Hwb. destruct (classify data); congruence. }
        rewrite (refresh_still_processing backend _ _ _ _ _ Hfind Hv Hne Hst Hcl).
        cbn [fst snd showUploadModal selectedAssetForUpload log]. repeat split.
        eexists. split; [reflexivity|].
        cbn [app]. rewrite !countOf_cons.
        rewrite ?reloadEvents_no_provider_call, ?reloadEvents_count_update. cbn. lia.
    + rewrite (refresh_status_failure backend _ _ _ _ Hfind Hv Hne) by now rewrite Hst.
      cbn [fst snd showUploadModal selectedAssetForUpload log]. repeat split.
      eexists. split; [reflexivity|]. cbn. lia.
Qed.

(** An id that no asset of the list carries: handleRefreshVideo asks the
    backend nothing, changes nothing, and shows "Asset not found" in the
    failure toast. *)
Theorem refresh_unknown_id backend assetId c :
  findAsset assetId c = None ->
  let r := handleRefreshVideo backend assetId c in
  fst r = Returned tt /\
  assets (snd r) = assets c /\
  filteredAssets (snd r) = filteredAssets c /\
  log (snd r) =
    (log c ++ [EToast checkingToast;
               EConsoleError "Error getting video status:" (Error "Asset not found");
               EToast {| title := "Failed to Get Video Status";
                         description := "Asset not found";
                         variant := Some "destructive" |}])%list.
Proof.
  intros Hfind. cbn zeta. rewrite (refresh_not_found backend _ _ Hfind).
  repeat split.
Qed.

Lemma refresh_unknown_id_witness :
  findAsset "zz" (mounted [pendingVideo; finishedVideo]) = None /\
  let c := mounted [pendingVideo; finishedVideo] in
  let r := handleRefreshVideo unavailable "zz" c in
  fst r = Returned tt /\
  assets (snd r) = assets c /\
  filteredAssets (snd r) = filteredAssets c /\
  log (snd r) =
    (log c ++ [EToast checkingToast;
               EConsoleError "Error getting video status:" (Error "Asset not found");
               EToast {| title := "Failed to Get Video Status";
                         description := "Asset not found";
                         variant := Some "destructive" |}])%list.
Proof.
  split; [reflexivity|].
  apply (refresh_unknown_id unavailable "zz" (mounted [pendingVideo; finishedVideo])).
  reflexivity.
Defined.

(* --------------------------------------------------------------------- *)
(* updateAsset                                                            *)
(* --------------------------------------------------------------------- *)

Lemma updates_obj_keys updates k :
  k <> "url" -> k <> "status" -> updates_obj updates !! k = None.
Proof.
  intros H1 H2. unfold updates_obj.
  destruct (u_url updates), (u_status updates);
    rewrite ?lookup_insert_ne, ?lookup_singleton_ne, ?lookup_empty by congruence;
    reflexivity.
Qed.

Lemma spread_keeps_id asset updates x :
  field_is (spread asset updates) "id" x = field_is asset "id" x.
Proof.
  unfold field_is, str_field. rewrite spread_lookup.
  now rewrite updates_obj_keys by discriminate.
Qed.

Lemma find_applyUpdates assetId updates l :
  List.find (fun a => field_is a "id" assetId) (applyUpdates assetId updates l)
  = option_map (fun a => spread a updates)
               (List.find (fun a => field_is a "id" assetId) l).
Proof.
  induction l as [|a l IH]; [reflexivity|]. cbn.
  destruct (field_is a "id" assetId) eqn:Hid.
  - now rewrite spread_keeps_id, Hid.
  - rewrite Hid. exact IH.
Qed.

(** When the backend refuses an update (the request is rejected or the
    answer is not a success), updateAsset logs the error and throws it
    again: the asset list is not touched. *)
Theorem updateAsset_refused_leaves_assets backend assetId updates c :
  isSuccess (api_updateAsset backend assetId updates) = false ->
  let e := replyError (api_updateAsset backend assetId updates) "Failed to update asset" in
  let r := updateAsset backend assetId updates c in
  fst r = Thrown e /\
  assets (snd r) = assets c /\
  log (snd r) = (log c ++ [ECallUpdateAsset assetId updates;
                           EConsoleError "Failed to update asset:" e])%list.
Proof.
  intros Hno. cbn zeta. unfold updateAsset. unfold_async.
  destruct (api_updateAsset backend assetId updates) as [e|row|err]; try discriminate;
    cbn; rewrite <- !app_assoc; repeat split.
Qed.

Lemma updateAsset_refused_leaves_assets_witness :
  let backend := readOnly failedStatus in
  let updates := {| u_url := None; u_status := Some "failed" |} in
  let c := mounted [pendingVideo] in
  isSuccess (api_updateAsset backend "a1" updates) = false /\
  let e := replyError (api_updateAsset backend "a1" updates) "Failed to update asset" in
  let r := updateAsset backend "a1" updates c in
  fst r = Thrown e /\
  assets (snd r) = assets c /\
  log (snd r) = (log c ++ [ECallUpdateAsset "a1" updates;
                           EConsoleError "Failed to update asset:" e])%list.
Proof.
  cbn zeta. split; [reflexivity|].
  apply (updateAsset_refused_leaves_assets (readOnly failedStatus) "a1"
           {| u_url := None; u_status := Some "failed" |} (mounted [pendingVideo])).
  reflexivity.
Defined.

(** When the backend accepts an update, updateAsset returns the row the
    backend sent and rewrites the list in place: as many assets as
    before, each asset with the given id replaced by its copy with the
    updated properties (its id unchanged, so it is still found under the
    same id), every other asset as it was. *)
Theorem updateAsset_accepted_rewrites_in_place backend assetId updates c row :
  api_updateAsset backend assetId updates = Success row ->
  let r := updateAsset backend assetId updates c in
  fst r = Returned row /\
  List.length (assets (snd r)) = List.length (assets c) /\
  findAsset assetId (snd r)
    = option_map (fun a => spread a updates) (findAsset assetId c) /\
  (forall n a, nth_error (assets c) n = Some a ->
     nth_error (assets (snd r)) n
       = Some (if field_is a "id" assetId then spread a updates else a)) /\
  log (snd r) = (log c ++ [ECallUpdateAsset assetId updates;
                           ESetAssets (assets (snd r))])%list.
Proof.
  intros Hok. cbn zeta. unfold updateAsset. unfold_async. rewrite Hok. cbn.
  fold (applyUpdates assetId updates (assets c)).
  split; [reflexivity|]. split; [apply List.length_map|].
  split; [apply find_applyUpdates|]. split.
  - intros n a Hn. unfold applyUpdates.
    exact (map_nth_error (fun a => if field_is a "id" assetId then spread a updates else a)
                         _ _ Hn).
  - now rewrite <- !app_assoc.
Qed.

Lemma updateAsset_accepted_rewrites_in_place_witness :
  let backend := answering completedStatus [] in
  let updates := {| u_url := Some "https://x/video.mp4"; u_status := Some "completed" |} in
  let c := mounted [finishedVideo; pendingVideo] in
  api_updateAsset backend "a1" updates = Success ∅ /\
  let r := updateAsset backend "a1" updates c in
  fst r = Returned ∅ /\
  List.length (assets (snd r)) = List.length (assets c) /\
  findAsset "a1" (snd r)
    = option_map (fun a => spread a updates) (findAsset "a1" c) /\
  (forall n a, nth_error (assets c) n = Some a ->
     nth_error (assets (snd r)) n
       = Some (if field_is a "id" "a1" then spread a updates else a)) /\
  log (snd r) = (log c ++ [ECallUpdateAsset "a1" updates;
                           ESetAssets (assets (snd r))])%list.
Proof.
  cbn zeta. split; [reflexivity|].
  apply (updateAsset_accepted_rewrites_in_place (answering completedStatus []) "a1"
           {| u_url := Some "https://x/video.mp4"; u_status := Some "completed" |}
           (mounted [finishedVideo; pendingVideo]) ∅).
  reflexivity.
Defined.

(* --------------------------------------------------------------------- *)
(* loadAssets, handleManualRefresh, handleBulkRecovery                    *)
(* --------------------------------------------------------------------- *)

(** handleManualRefresh has no catch: when the library cannot be read the
    error reaches the caller, after the "Refreshing Assets" toast, and
    the lists are as before; when it can, both [assets] and
    [filteredAssets] become the rows read, whatever filter was applied. *)
Theorem manual_refresh_propagates_failure backend c :
  let r := handleManualRefresh backend c in
  match hook_getLibraryAssets backend with
  | Thrown e =>
      fst r = Thrown e /\ assets (snd r) = assets c /\
      filteredAssets (snd r) = filteredAssets c
  | Returned data =>
      fst r = Returned tt /\ assets (snd r) = data /\ filteredAssets (snd r) = data
  end /\
  exists rest,
    log (snd r) = (log c ++ EToast {| title := "Refreshing Assets";
                                      description := "Loading latest asset updates...";
                                      variant := None |}
                         :: EConsoleLog "Loading assets from library..."
                         :: ECallGetLibraryAssets :: rest)%list /\
    existsb isProviderCall rest = false /\ existsb isUpdateCall rest = false.
Proof.
  cbn zeta. unfold handleManualRefresh. unfold_async. cbn.
  destruct (hook_getLibraryAssets backend) as [data|e]; cbn;
    (split; [repeat split|]); eexists; rewrite <- !app_assoc; cbn;
    (split; [reflexivity|]); split; reflexivity.
Qed.

Lemma count_updated_le data : (count_updated data <= List.length data)%nat.
Proof. unfold count_updated. apply List.filter_length_le. Qed.

(** handleBulkRecovery sends one recoverPending request and never a
    status request or an update.  When the request does not succeed the
    lists are as before and the error is shown; when it succeeds the
    toast reports [n videos checked. m videos updated.] with [m <= n],
    and the library is reloaded.  It returns normally in every case. *)
Theorem bulk_recovery_behaviour backend c :
  let r := handleBulkRecovery backend c in
  fst r = Returned tt /\
  exists rest,
    log (snd r) = (log c ++ EToast {| title := "Recovering Pending Videos";
                                      description := "Checking all pending HeyGen videos...";
                                      variant := None |}
                         :: ECallRecoverPending :: rest)%list /\
    existsb isProviderCall rest = false /\ existsb isUpdateCall rest = false /\
    match api_recoverPending backend with
    | Success data =>
        (count_updated data <= List.length data)%nat /\
        List.hd_error rest =
          Some (EToast {| title := "✅ Bulk Recovery Completed";
                          description := show_nat (List.length data) ++ " videos checked. "
                                         ++ show_nat (count_updated data)
                                         ++ " videos updated.";
                          variant := None |}) /\
        assets (snd r) = reloadedAssets backend (assets c)
    | reply =>
        assets (snd r) = assets c /\ filteredAssets (snd r) = filteredAssets c /\
        List.last rest (EToast checkingToast) =
          EToast {| title := "Failed to Recover Videos";
                    description := or_else (Some (message (replyError reply "Bulk recovery failed")))
                                           "Could not recover pending videos.";
                    variant := Some "destructive" |}
    end.
Proof.
  cbn zeta. unfold handleBulkRecovery, reloadedAssets. unfold_async. cbn.
  destruct (api_recoverPending backend) as [e|data|err]; cbn.
  - split; [reflexivity|]. eexists. rewrite <- !app_assoc. cbn.
    split; [reflexivity|]. repeat split.
  - destruct (hook_getLibraryAssets backend) as [rows|e]; cbn;
      (split; [reflexivity|]); eexists; rewrite <- !app_assoc; cbn;
      (split; [reflexivity|]); repeat split; apply count_updated_le.
  - split; [reflexivity|]. eexists. rewrite <- !app_assoc. cbn.
    split; [reflexivity|]. repeat split.
Qed.

(* --------------------------------------------------------------------- *)
(* The video id                                                           *)
(* --------------------------------------------------------------------- *)

Lemma replace_placeholder x : replace_first "pending_" "" ("pending_" ++ x) = x.
Proof. cbn. destruct x; reflexivity. Qed.

(** A url [pending_<x>] with [x] not empty: the id is [x], whatever the
    description says, and [x] is what handleRefreshVideo asks the status
    endpoint about. *)
Theorem placeholder_id_is_asked backend assetId c asset x :
  findAsset assetId c = Some asset ->
  str_field asset "asset_url" = Some ("pending_" ++ x) ->
  x <> "" ->
  extractVideoId asset = Some x /\
  exists rest,
    log (snd (handleRefreshVideo backend assetId c))
    = (log c ++ EToast checkingToast :: ECallGetStatus x :: rest)%list.
Proof.
  intros Hfind Hurl Hx.
  assert (Hid : extractVideoId asset = Some x).
  { unfold extractVideoId, field_startsWith. rewrite Hurl.
    destruct (placeholder_facts x) as (He & _ & _ & Hs). cbn zeta in *.
    cbn [truthy option_map]. rewrite He, Hs. cbn [negb andb].
    now rewrite replace_placeholder. }
  split; [exact Hid|].
  destruct (refresh_found backend _ _ _ Hfind) as [_ Hlog].
  rewrite (providerCall_with_id _ _ Hid Hx) in Hlog. eexists. exact Hlog.
Qed.

Lemma placeholder_id_is_asked_witness :
  let c := mounted [<["description" := JStr "video_id:other"]> pendingVideo] in
  let asset := <["description" := JStr "video_id:other"]> pendingVideo in
  findAsset "a1" c = Some asset /\
  str_field asset "asset_url" = Some ("pending_" ++ "ext-9") /\
  "ext-9" <> "" /\
  extractVideoId asset = Some "ext-9" /\
  exists rest,
    log (snd (handleRefreshVideo unavailable "a1" c))
    = (log c ++ EToast checkingToast :: ECallGetStatus "ext-9" :: rest)%list.
Proof.
  cbn zeta. split; [reflexivity|]. split; [reflexivity|]. split; [discriminate|].
  apply (placeholder_id_is_asked unavailable "a1"
           (mounted [<["description" := JStr "video_id:other"]> pendingVideo])
           (<["description" := JStr "video_id:other"]> pendingVideo) "ext-9");
    [reflexivity|reflexivity|discriminate].
Defined.

Lemma match_literal_ci_sound lit s rest :
  match_literal_ci lit s = Some rest ->
  exists m, s = m ++ rest /\ fold_case m = lit.
Proof.
  revert s. induction lit as [|l lit IH]; intros s; cbn [match_literal_ci].
  - intros [= <-]. exists "". split; reflexivity.
  - destruct s as [|ch s]; [discriminate|]. cbn [match_literal_ci].
    destruct (Ascii.eqb (to_lower ch) l) eqn:E; [|discriminate].
    apply Ascii.eqb_eq in E. intros H. destruct (IH _ H) as (m & -> & Hm).
    exists (String ch m). cbn. split; [reflexivity|]. now rewrite E, Hm.
Qed.

Lemma match_literal_ci_complete m rest :
  match_literal_ci (fold_case m) (m ++ rest) = Some rest.
Proof.
  induction m as [|ch m IH]; [reflexivity|].
  change (String ch m ++ rest) with (String ch (m ++ rest)).
  cbn [fold_case match_literal_ci]. now rewrite Ascii.eqb_refl.
Qed.

Lemma take_word_sound s :
  exists post,
    s = take_word s ++ post /\
    string_forallb is_word_char (take_word s) = true /\
    word_ends_here post = true.
Proof.
  induction s as [|ch s (post & Hs & Hw & Hp)]; cbn [take_word].
  - exists "". repeat split.
  - destruct (is_word_char ch) eqn:E.
    + exists post.
      change (String ch (take_word s) ++ post) with (String ch (take_word s ++ post)).
      rewrite <- Hs. cbn [string_forallb]. rewrite E, Hw. repeat split. exact Hp.
    + exists (String ch s). split; [reflexivity|]. split; [reflexivity|].
      cbn [word_ends_here]. now rewrite E.
Qed.

Lemma take_word_complete w post :
  string_forallb is_word_char w = true ->
  word_ends_here post = true ->
  take_word (w ++ post) = w.
Proof.
  intros Hw Hp. induction w as [|ch w IH].
  - change ("" ++ post) with post.
    destruct post as [|ch post]; [reflexivity|]. cbn [word_ends_here take_word] in *.
    apply negb_true_iff in Hp. now rewrite Hp.
  - change (String ch w ++ post) with (String ch (w ++ post)).
    cbn [string_forallb take_word] in *.
    apply andb_true_iff in Hw as [Hc Hw]. rewrite Hc. now rewrite IH.
Qed.

(** What the regular expression captures is sound: the id read from a
    description is a non-empty run of word characters ([A-Za-z0-9_]) that
    stands in the description right after [video_id] (in any case) and a
    [:] or [_], and the run is maximal: it stops at the end of the text
    or at the first character that is not a word character. *)
Theorem description_id_is_a_word d w :
  match_video_id d = Some w ->
  w <> "" /\
  string_forallb is_word_char w = true /\
  exists pre lit sep post,
    d = pre ++ lit ++ String sep (w ++ post) /\
    fold_case lit = "video_id" /\
    (sep = ":"%char \/ sep = "_"%char) /\
    word_ends_here post = true.
Proof.
  intros H. split; [eapply match_video_id_nonempty, H|].
  assert (Hhere : forall s, match_here s = Some w ->
            string_forallb is_word_char w = true /\
            exists lit sep post,
              s = lit ++ String sep (w ++ post) /\ fold_case lit = "video_id" /\
              (sep = ":"%char \/ sep = "_"%char) /\ word_ends_here post = true).
  { intros s. unfold match_here.
    destruct (match_literal_ci "video_id" s) as [[|sep rest]|] eqn:Hl; try discriminate.
    destruct (Ascii.eqb sep ":" || Ascii.eqb sep "_") eqn:Hsep; [|discriminate].
    destruct (take_word_sound rest) as (post & Hrest & Hw & Hp).
    destruct (take_word rest) as [|c0 w0] eqn:Hw0; [discriminate|].
    intros [= <-]. split; [exact Hw|].
    destruct (match_literal_ci_sound _ _ _ Hl) as (lit & -> & Hlit).
    exists lit, sep, post. rewrite <- Hrest. repeat split; [exact Hlit| |exact Hp].
    apply orb_true_iff in Hsep as [E|E]; apply Ascii.eqb_eq in E; auto. }
  revert H. induction d as [|ch d IH]; cbn [match_video_id].
  - destruct (match_here "") eqn:E; [|discriminate].
    intros [= ->]. destruct (Hhere _ E) as (Hw & lit & sep & post & Hd & Hrest).
    split; [exact Hw|]. exists "", lit, sep, post. split; [exact Hd|exact Hrest].
  - destruct (match_here (String ch d)) eqn:E.
    + intros [= ->]. destruct (Hhere _ E) as (Hw & lit & sep & post & Hd & Hrest).
      split; [exact Hw|]. exists "", lit, sep, post. split; [exact Hd|exact Hrest].
    + intros H. destruct (IH H) as (Hw & pre & lit & sep & post & -> & Hrest).
      split; [exact Hw|]. exists (String ch pre), lit, sep, post.
      split; [reflexivity|exact Hrest].
Qed.

Lemma description_id_is_a_word_witness :
  match_video_id "HeyGen Video_ID:abc_12-x" = Some "abc_12" /\
  "abc_12" <> "" /\
  string_forallb is_word_char "abc_12" = true /\
  exists pre lit sep post,
    "HeyGen Video_ID:abc_12-x" = pre ++ lit ++ String sep ("abc_12" ++ post) /\
    fold_case lit = "video_id" /\
    (sep = ":"%char \/ sep = "_"%char) /\
    word_ends_here post = true.
Proof.
  split; [reflexivity|].
  apply (description_id_is_a_word "HeyGen Video_ID:abc_12-x" "abc_12"). reflexivity.
Defined.

(** A description that begins with [video_id] (in any case), a [:] or
    [_], and an id: the id read is the leading run of word characters of
    what follows, so an id with a hyphen or a dot in it is cut at that
    character. *)
Theorem description_id_is_cut_at_non_word lit sep w post :
  fold_case lit = "video_id" ->
  (sep = ":"%char \/ sep = "_"%char) ->
  w <> "" ->
  string_forallb is_word_char w = true ->
  word_ends_here post = true ->
  match_video_id (lit ++ String sep (w ++ post)) = Some w.
Proof.
  intros Hlit Hsep Hne Hw Hp.
  assert (Hhere : match_here (lit ++ String sep (w ++ post)) = Some w).
  { unfold match_here. rewrite <- Hlit, match_literal_ci_complete.
    assert (Hs : Ascii.eqb sep ":" || Ascii.eqb sep "_" = true).
    { destruct Hsep as [-> | ->]; reflexivity. }
    rewrite Hs, (take_word_complete _ _ Hw Hp).
    destruct w; [contradiction|reflexivity]. }
  destruct (lit ++ String sep (w ++ post)) eqn:E; cbn [match_video_id];
    now rewrite Hhere.
Qed.

Lemma description_id_is_cut_at_non_word_witness :
  fold_case "Video_Id" = "video_id" /\
  (":"%char = ":"%char \/ ":"%char = "_"%char) /\
  "ext" <> "" /\
  string_forallb is_word_char "ext" = true /\
  word_ends_here "-9 queued" = true /\
  match_video_id ("Video_Id" ++ String ":" ("ext" ++ "-9 queued")) = Some "ext".
Proof.
  split; [reflexivity|]. split; [left; reflexivity|]. split; [discriminate|].
  split; [reflexivity|]. split; [reflexivity|].
  apply (description_id_is_cut_at_non_word "Video_Id" ":" "ext" "-9 queued");
    [reflexivity|left; reflexivity|discriminate|reflexivity|reflexivity].
Defined.

(* --------------------------------------------------------------------- *)
(* handleToggleFavorite and handleDelete                                  *)
(* --------------------------------------------------------------------- *)

Lemma favorited_keeps_id a b x :
  field_is (<["favorited" := JBool b]> a) "id" x = field_is a "id" x.
Proof. unfold field_is, str_field. now rewrite lookup_insert_ne by discriminate. Qed.

(** handleToggleFavorite: when the hook fails the error reaches the
    caller and the list is as before; when it succeeds the list has the
    same length, every asset with the id carries the new flag and every
    other asset is as it was. *)
Theorem toggle_favorite_behaviour hooks id currentFavorited c :
  let r := handleToggleFavorite hooks id currentFavorited c in
  match hook_toggleFavorite hooks id (negb currentFavorited) with
  | Thrown e => r = (Thrown e, c)
  | Returned _ =>
      fst r = Returned tt /\
      List.length (assets (snd r)) = List.length (assets c) /\
      (forall n a, nth_error (assets c) n = Some a ->
         nth_error (assets (snd r)) n
         = Some (if field_is a "id" id
                 then <["favorited" := JBool (negb currentFavorited)]> a else a)) /\
      (forall a, findAsset id (snd r) = Some a ->
                 a !! "favorited" = Some (JBool (negb currentFavorited)))
  end.
Proof.
  cbn zeta. unfold handleToggleFavorite, awaitHook. unfold_async.
  destruct (hook_toggleFavorite hooks id (negb currentFavorited)) as [[]|e];
    [|reflexivity].
  cbn. split; [reflexivity|]. split; [apply List.length_map|]. split.
  - intros n a Hn.
    exact (map_nth_error (fun a => if field_is a "id" id
                                   then <["favorited" := JBool (negb currentFavorited)]> a
                                   else a) _ _ Hn).
  - unfold findAsset. cbn [assets]. intros a Hfind.
    apply List.find_some in Hfind as [Hin Hid].
    apply in_map_iff in Hin as (a0 & <- & _).
    destruct (field_is a0 "id" id) eqn:E.
    + apply lookup_insert_eq.
    + congruence.
Qed.

(** Toggling the favorite flag of an asset and toggling it back gives the
    list there was, when the flag of the assets with that id was the
    boolean the first call was given. *)
Theorem toggle_favorite_twice hooks id currentFavorited c :
  hook_toggleFavorite hooks id (negb currentFavorited) = Returned tt ->
  hook_toggleFavorite hooks id currentFavorited = Returned tt ->
  (forall a, In a (assets c) -> field_is a "id" id = true ->
             a !! "favorited" = Some (JBool currentFavorited)) ->
  let once := snd (handleToggleFavorite hooks id currentFavorited c) in
  let twice := snd (handleToggleFavorite hooks id (negb currentFavorited) once) in
  assets twice = assets c /\
  (forall a, findAsset id once = Some a ->
             a !! "favorited" = Some (JBool (negb currentFavorited))).
Proof.
  intros H1 H2 Hflag. cbn zeta.
  unfold handleToggleFavorite, awaitHook. unfold_async.
  rewrite negb_involutive, H1. cbn. rewrite H2. cbn. split.
  - rewrite List.map_map. rewrite <- (List.map_id (assets c)) at 2.
    apply List.map_ext_in. intros a Hin.
    destruct (field_is a "id" id) eqn:E.
    + rewrite favorited_keeps_id, E. rewrite insert_insert_eq.
      apply insert_id. now apply Hflag.
    + now rewrite E.
  - unfold findAsset. cbn [assets]. intros a Hfind.
    apply List.find_some in Hfind as [Hin Hid].
    apply in_map_iff in Hin as (a0 & <- & _).
    destruct (field_is a0 "id" id) eqn:E; [apply lookup_insert_eq|congruence].
Qed.

Lemma toggle_favorite_twice_witness :
  let c := mounted [pendingVideo; favoriteVideo] in
  hook_toggleFavorite obliging "v7" (negb true) = Returned tt /\
  hook_toggleFavorite obliging "v7" true = Returned tt /\
  (forall a, In a (assets c) -> field_is a "id" "v7" = true ->
             a !! "favorited" = Some (JBool true)) /\
  let once := snd (handleToggleFavorite obliging "v7" true c) in
  let twice := snd (handleToggleFavorite obliging "v7" (negb true) once) in
  assets twice = assets c /\
  (forall a, findAsset "v7" once = Some a ->
             a !! "favorited" = Some (JBool (negb true))).
Proof.
  cbn zeta. split; [reflexivity|]. split; [reflexivity|].
  assert (Hflag : forall a, In a (assets (mounted [pendingVideo; favoriteVideo])) ->
            field_is a "id" "v7" = true -> a !! "favorited" = Some (JBool true)).
  { intros a [<- | [<- | []]]; [discriminate|reflexivity]. }
  split; [exact Hflag|].
  apply (toggle_favorite_twice obliging "v7" true (mounted [pendingVideo; favoriteVideo]));
    [reflexivity|reflexivity|exact Hflag].
Defined.

Lemma find_filter_other (id other : string) (l : list Asset) :
  other <> id ->
  List.find (fun a => field_is a "id" other)
            (List.filter (fun a => negb (field_is a "id" id)) l)
  = List.find (fun a => field_is a "id" other) l.
Proof.
  intros Hne. induction l as [|a l IH]; [reflexivity|]. cbn.
  destruct (field_is a "id" id) eqn:E; cbn.
  - destruct (field_is a "id" other) eqn:E'; [|exact IH].
    unfold field_is in E, E'. destruct (str_field a "id"); [|discriminate].
    apply String.eqb_eq in E, E'. congruence.
  - destruct (field_is a "id" other); [reflexivity|exact IH].
Qed.

Lemma find_filter_self (id : string) (l : list Asset) :
  List.find (fun a => field_is a "id" id)
            (List.filter (fun a => negb (field_is a "id" id)) l) = None.
Proof.
  induction l as [|a l IH]; [reflexivity|]. cbn.
  destruct (field_is a "id" id) eqn:E; cbn; [exact IH|]. now rewrite E.
Qed.

(** handleDelete: when the user does not confirm, nothing happens,
    whatever the hook would have done; when the hook fails, the error
    reaches the caller and the list is as before; otherwise no asset is
    left under the id, every other id finds the asset it found before,
    and a later status check of the deleted id asks the backend nothing
    and ends in "Asset not found". *)
Theorem delete_behaviour hooks backend id c :
  let r := handleDelete hooks id c in
  if window_confirm hooks "Are you sure you want to remove this asset from your library?"
  then
    match hook_deleteFromLibrary hooks id with
    | Thrown e => r = (Thrown e, c)
    | Returned _ =>
        fst r = Returned tt /\
        findAsset id (snd r) = None /\
        (forall other, other <> id -> findAsset other (snd r) = findAsset other c) /\
        (List.length (assets (snd r)) <= List.length (assets c))%nat /\
        log (snd (handleRefreshVideo backend id (snd r)))
        = (log (snd r)
           ++ [EToast checkingToast;
               EConsoleError "Error getting video status:" (Error "Asset not found");
               EToast {| title := "Failed to Get Video Status";
                         description := "Asset not found";
                         variant := Some "destructive" |}])%list
    end
  else r = (Returned tt, c).
Proof.
  cbn zeta. unfold handleDelete, awaitHook. unfold_async.
  destruct (window_confirm hooks _); [|reflexivity].
  destruct (hook_deleteFromLibrary hooks id) as [[]|e]; [|reflexivity].
  cbn [fst snd]. split; [reflexivity|].
  assert (Hgone : findAsset id
            {| assets := List.filter (fun a => negb (field_is a "id" id)) (assets c);
               filteredAssets := filteredAssets c; showUploadModal := showUploadModal c;
               selectedAssetForUpload := selectedAssetForUpload c;
               log := log c ++ [ESetAssets (List.filter (fun a => negb (field_is a "id" id))
                                              (assets c))] |} = None).
  { unfold findAsset. cbn [assets]. apply find_filter_self. }
  split; [exact Hgone|]. split.
  { intros other Hne. unfold findAsset. cbn [assets]. now apply find_filter_other. }
  split; [apply List.filter_length_le|].
  now rewrite (refresh_not_found backend _ _ Hgone).
Qed.

(* --------------------------------------------------------------------- *)
(* The upload modal                                                       *)
(* --------------------------------------------------------------------- *)

(** handleUpload opens the modal exactly for the assets that pass its
    guard, and otherwise leaves the modal as it was and shows the "Upload
    Not Available" toast; handleUploadComplete and the modal's onClose
    both close it and forget the selection, whatever was open, and
    neither handler touches the asset list. *)
Theorem upload_modal_round_trip asset platform c :
  let opened := snd (handleUpload asset c) in
  uploadModalShown opened
    = (if uploadable asset then true else uploadModalShown c) /\
  (uploadable asset = false ->
   selectedAssetForUpload opened = selectedAssetForUpload c /\
   List.existsb (fun e => match e with EToast _ => true | _ => false end)
                (List.skipn (List.length (log c)) (log opened)) = true) /\
  uploadModalShown (snd (handleUploadComplete platform opened)) = false /\
  selectedAssetForUpload (snd (handleUploadComplete platform opened)) = None /\
  uploadModalShown (snd (onClose opened)) = false /\
  selectedAssetForUpload (snd (onClose opened)) = None /\
  assets (snd (handleUploadComplete platform opened)) = assets c /\
  assets (snd (onClose opened)) = assets c.
Proof.
  cbn zeta. unfold handleUpload, handleUploadComplete, onClose, uploadModalShown.
  unfold_async. destruct (uploadable asset); cbn.
  - split; [reflexivity|]. split; [discriminate|]. repeat split.
  - split; [reflexivity|]. split; [|repeat split].
    intros _. split; [reflexivity|].
    rewrite List.skipn_app, List.skipn_all, Nat.sub_diag. reflexivity.
Qed.

(* --------------------------------------------------------------------- *)
(* assetCounts                                                            *)
(* --------------------------------------------------------------------- *)

Lemma type_exclusive a :
  (Nat.b2n (field_is a "asset_type" "image") + Nat.b2n (field_is a "asset_type" "video")
   + Nat.b2n (field_is a "asset_type" "content") + Nat.b2n (otherType a) = 1)%nat.
Proof.
  unfold otherType, field_is. destruct (str_field a "asset_type") as [s|]; [|reflexivity].
  destruct (String.eqb s "image") eqn:E1.
  { apply String.eqb_eq in E1. subst s. reflexivity. }
  destruct (String.eqb s "video") eqn:E2.
  { apply String.eqb_eq in E2. subst s. reflexivity. }
  destruct (String.eqb s "content"); reflexivity.
Qed.

Lemma filter_length_cons {A} (p : A -> bool) a l :
  List.length (List.filter p (a :: l)) = (Nat.b2n (p a) + List.length (List.filter p l))%nat.
Proof. cbn. destruct (p a); reflexivity. Qed.

(** The tab counters: the images, videos and contents, together with the
    assets of any other type, add up to the "All" counter; so the three
    tabs never count more than "All", and count exactly "All" when every
    asset is an image, a video or a content. *)
Theorem asset_counts_add_up (l : list Asset) :
  let n := assetCounts l in
  (count_image n + count_video n + count_content n
   + List.length (List.filter otherType l) = count_all n)%nat /\
  (count_image n + count_video n + count_content n <= count_all n)%nat /\
  (count_image n + count_video n + count_content n = count_all n
   <-> List.forallb (fun a => negb (otherType a)) l = true)%nat.
Proof.
  cbn zeta. unfold assetCounts. cbn [count_all count_image count_video count_content].
  assert (Hsum : (List.length (List.filter (fun a => field_is a "asset_type" "image") l)
                  + List.length (List.filter (fun a => field_is a "asset_type" "video") l)
                  + List.length (List.filter (fun a => field_is a "asset_type" "content") l)
                  + List.length (List.filter otherType l) = List.length l)%nat).
  { induction l as [|a l IH]; [reflexivity|].
    rewrite !filter_length_cons. cbn [List.length].
    pose proof (type_exclusive a). lia. }
  split; [exact Hsum|]. split; [lia|].
  assert (Hnone : List.length (List.filter otherType l) = 0%nat
                  <-> List.forallb (fun a => negb (otherType a)) l = true).
  { clear Hsum. induction l as [|a l IH]; [cbn; tauto|].
    rewrite filter_length_cons. cbn [List.forallb].
    destruct (otherType a); cbn [Nat.b2n negb andb].
    - split; [lia|discriminate].
    - exact IH. }
  rewrite <- Hnone. lia.
Qed.

(* --------------------------------------------------------------------- *)
(* The video card                                                         *)
(* --------------------------------------------------------------------- *)

(** On the card of a video the upload button is offered exactly when the
    download button is enabled.  Under the spinner neither is; beside the
    player both are; beside the failure panel both are when the url is
    the string ['failed'] and neither is when there is no url. *)
Theorem video_card_buttons asset :
  field_is asset "asset_type" "video" = true ->
  uploadable asset = negb (downloadDisabled asset) /\
  match videoPanel asset with
  | Spinner => uploadable asset = false /\ isProcessingVideo asset = true
  | FailurePanel => uploadable asset = field_is asset "asset_url" "failed"
  | Player src => uploadable asset = true /\ str_field asset "asset_url" = Some src
  end.
Proof.
  intros Hvideo. unfold uploadable, downloadDisabled, videoPanel, isProcessingVideo.
  rewrite Hvideo. unfold field_is, field_startsWith.
  destruct (str_field asset "asset_url") as [s|]; [|split; reflexivity].
  cbn [truthy or_else andb].
  destruct (String.eqb s "processing") eqn:E1.
  { apply String.eqb_eq in E1. subst s. split; [reflexivity|]. split; reflexivity. }
  destruct (String.eqb s "pending") eqn:E2.
  { apply String.eqb_eq in E2. subst s. split; [reflexivity|]. split; reflexivity. }
  destruct (String.eqb s "failed") eqn:E3.
  { apply String.eqb_eq in E3. subst s. split; reflexivity. }
  destruct (String.eqb s "") eqn:E4; cbn; split; try reflexivity. split; reflexivity.
Qed.

Lemma video_card_buttons_witness :
  let failed : Asset := <["asset_url" := JStr "failed"]> pendingVideo in
  field_is failed "asset_type" "video" = true /\
  videoPanel failed = FailurePanel /\
  uploadable failed = negb (downloadDisabled failed) /\
  match videoPanel failed with
  | Spinner => uploadable failed = false /\ isProcessingVideo failed = true
  | FailurePanel => uploadable failed = field_is failed "asset_url" "failed"
  | Player src => uploadable failed = true /\ str_field failed "asset_url" = Some src
  end.
Proof.
  cbn zeta. split; [reflexivity|]. split; [reflexivity|].
  apply (video_card_buttons (<["asset_url" := JStr "failed"]> pendingVideo)). reflexivity.
Defined.

Lemma placeholder_is_no_keyword s :
  startsWith s "pending_" = true ->
  String.eqb s "" = false /\ String.eqb s "processing" = false /\
  String.eqb s "pending" = false /\ String.eqb s "failed" = false.
Proof.
  intros H. repeat split.
  all: match goal with |- String.eqb ?x ?k = false =>
         destruct (String.eqb x k) eqn:E; [|reflexivity];
         apply String.eqb_eq in E; subst; discriminate H end.
Qed.

(** A video under the placeholder [pending_<id>] is one the progress
    simulation runs for, but its card never shows the spinner with that
    progress: it shows the player, pointed at the placeholder, with the
    download button enabled, and a click on it goes through
    handleDownload to a link. *)
Theorem placeholder_video_gets_a_player asset s :
  field_is asset "asset_type" "video" = true ->
  str_field asset "asset_url" = Some s ->
  startsWith s "pending_" = true ->
  isProcessingVideo asset = true /\
  videoPanel asset = Player s /\
  downloadDisabled asset = false /\
  exists name started,
    handleDownload (Returned tt) asset
    = [DClickLink (downloadUrl asset) name "_blank"; DToast started].
Proof.
  intros Htype Hurl Hs. destruct (placeholder_is_no_keyword s Hs) as (E0 & E1 & E2 & E3).
  unfold isProcessingVideo, videoPanel, downloadDisabled, handleDownload.
  assert (Hc : field_is asset "asset_type" "content" = false).
  { unfold field_is in *. destruct (str_field asset "asset_type") as [ty|]; [|reflexivity].
    apply String.eqb_eq in Htype. now subst ty. }
  rewrite Hc. unfold field_is, field_startsWith.
  rewrite Hurl. cbn [truthy or_else]. rewrite E0, E1, E2, E3, Hs. cbn.
  repeat split. eexists. eexists. reflexivity.
Qed.

Lemma placeholder_video_gets_a_player_witness :
  field_is pendingVideo "asset_type" "video" = true /\
  str_field pendingVideo "asset_url" = Some "pending_ext-9" /\
  startsWith "pending_ext-9" "pending_" = true /\
  isProcessingVideo pendingVideo = true /\
  videoPanel pendingVideo = Player "pending_ext-9" /\
  downloadDisabled pendingVideo = false /\
  exists name started,
    handleDownload (Returned tt) pendingVideo
    = [DClickLink (downloadUrl pendingVideo) name "_blank"; DToast started].
Proof.
  split; [reflexivity|]. split; [reflexivity|]. split; [reflexivity|].
  apply (placeholder_video_gets_a_player pendingVideo "pending_ext-9"); reflexivity.
Defined.

(** The "Recover Videos" button is shown only while the progress
    simulation has a video to run for; when every asset comes from
    HeyGen the two go together. *)
Theorem recover_button_needs_a_video_in_flight (l : list Asset) :
  (hasPendingHeyGenVideos l = true -> List.filter isProcessingVideo l <> []) /\
  (List.forallb (fun a => field_is a "source_system" "heygen") l = true ->
   (hasPendingHeyGenVideos l = true <-> List.filter isProcessingVideo l <> [])).
Proof.
  assert (Hsame : forall a,
            field_is a "asset_url" "pending" || field_is a "asset_url" "processing"
            || field_startsWith a "asset_url" "pending_" = isProcessingVideo a).
  { intros a. unfold isProcessingVideo.
    destruct (field_is a "asset_url" "pending"), (field_is a "asset_url" "processing");
      reflexivity. }
  unfold hasPendingHeyGenVideos. split.
  - induction l as [|a l IH]; [discriminate|]. cbn. rewrite Hsame.
    destruct (isProcessingVideo a); [discriminate|]. rewrite andb_false_r. exact IH.
  - induction l as [|a l IH]; [cbn; intuition congruence|]. cbn.
    intros Hall. apply andb_true_iff in Hall as [Ha Hall]. rewrite Ha, Hsame. cbn [andb].
    destruct (isProcessingVideo a); cbn [orb]; [intuition congruence|]. exact (IH Hall).
Qed.

(* --------------------------------------------------------------------- *)
(* The progress simulation over several ticks                             *)
(* --------------------------------------------------------------------- *)

Local Open Scope Q_scope.













(** The text under the bar switches to "Almost complete" exactly when the
    bar shows 92 or more; and while the bar is within 0 and 92 so is the
    percentage printed beside it. *)
Theorem progress_text_agrees_with_bar progressStates asset :
  (almostComplete progressStates asset = true
   <-> 92 <= displayedProgress progressStates asset) /\
  (0 <= displayedProgress progressStates asset ->
   displayedProgress progressStates asset <= 92 ->
   (0 <= percentLabel progressStates asset <= 92)%Z).
Proof.
  split.
  - unfold almostComplete, displayedProgress, num_or.
    destruct (progressStates !! asset_id asset) as [p|];
      [|split; [discriminate|intros H; exfalso; revert H; now apply Qlt_not_le]].
    rewrite Qle_bool_iff. destruct (Qeq_bool p 0) eqn:E; [|reflexivity].
    apply Qeq_bool_iff in E. rewrite E. reflexivity.
  - intros Hlo Hhi. unfold percentLabel, Math_round.
    assert (H1 : (Qfloor (1 # 2) <= Qfloor (displayedProgress progressStates asset + (1 # 2)))%Z).
    { apply Qfloor_resp_le. lra. }
    assert (H2 : (Qfloor (displayedProgress progressStates asset + (1 # 2))
                  <= Qfloor (185 # 2))%Z).
    { apply Qfloor_resp_le. lra. }
    change (Qfloor (1 # 2)) with 0%Z in H1. change (Qfloor (185 # 2)) with 92%Z in H2.
    lia.
Qed.

(** While the bar shows the estimate for [t] elapsed seconds of the five
    minutes, the minutes printed as remaining are what is left of the
    five minutes, rounded to the nearest minute and never less than one:
    between 1 and 5. *)
Theorem minutes_remaining_follow_elapsed progressStates asset t :
  0 <= t -> t <= 300 ->
  displayedProgress progressStates asset == newProgress t ->
  minutesRemaining progressStates asset = Z.max 1 (Math_round ((300 - t) / 60)) /\
  (1 <= minutesRemaining progressStates asset <= 5)%Z.
Proof.
  intros H0 H300 Hp.
  assert (Hlin : displayedProgress progressStates asset == t * (92 # 300)).
  { rewrite Hp, newProgress_min. apply Q.min_r. unfold targetProgress. lra. }
  assert (Hx : (300 - displayedProgress progressStates asset / 92 * 300) / 60 + (1 # 2)
               == (300 - t) / 60 + (1 # 2)).
  { rewrite Hlin. field. }
  assert (Heq : minutesRemaining progressStates asset
                = Z.max 1 (Math_round ((300 - t) / 60))).
  { unfold minutesRemaining, Math_round. f_equal. now apply Qfloor_comp. }
  split; [exact Heq|]. rewrite Heq. unfold Math_round.
  assert (Hpos : 0 <= (300 - t) / 60) by (apply Qle_shift_div_l; lra).
  assert (Hfive : (300 - t) / 60 <= 5) by (apply Qle_shift_div_r; lra).
  assert (Hlo : (Qfloor (1 # 2) <= Qfloor ((300 - t) / 60 + (1 # 2)))%Z).
  { apply Qfloor_resp_le. lra. }
  assert (Hhi : (Qfloor ((300 - t) / 60 + (1 # 2)) <= Qfloor (11 # 2))%Z).
  { apply Qfloor_resp_le. lra. }
  change (Qfloor (1 # 2)) with 0%Z in Hlo. change (Qfloor (11 # 2)) with 5%Z in Hhi.
  lia.
Qed.

Lemma minutes_remaining_follow_elapsed_witness :
  let progressStates : ProgressStates := {[ "a2"%string := newProgress 150 ]} in
  0 <= 150 /\ 150 <= 300 /\
  displayedProgress progressStates anonymousVideo == newProgress 150 /\
  minutesRemaining progressStates anonymousVideo = Z.max 1 (Math_round ((300 - 150) / 60)) /\
  (1 <= minutesRemaining progressStates anonymousVideo <= 5)%Z.
Proof.
  cbn zeta. split; [discriminate|]. split; [discriminate|]. split; [reflexivity|].
  apply (minutes_remaining_follow_elapsed {[ "a2"%string := newProgress 150 ]}
           anonymousVideo 150); [discriminate|discriminate|reflexivity].
Defined.

Local Close Scope Q_scope.

(* --------------------------------------------------------------------- *)
(* handleDownload                                                         *)
(* --------------------------------------------------------------------- *)

Lemma hex_digit_unreserved n : (n < 16)%nat -> is_unreserved (hex_digit n) = true.
Proof.
  intros H. do 16 (destruct n as [|n]; [reflexivity|]). lia.
Qed.

(** What encodeURIComponent returns holds only unreserved characters and
    the percent sign of its escapes: no [?], [&], [#], [/], [=] or space
    of the argument gets through. *)
Theorem encodeURIComponent_is_safe s :
  string_forallb (fun c => is_unreserved c || Ascii.eqb c "%") (encodeURIComponent s) = true.
Proof.
  induction s as [|ch s IH]; [reflexivity|]. cbn [encodeURIComponent].
  destruct (is_unreserved ch) eqn:E; cbn [string_forallb].
  - now rewrite E, IH.
  - rewrite !hex_digit_unreserved, IH; [reflexivity| |].
    + apply Nat.mod_upper_bound. discriminate.
    + apply Nat.Div0.div_lt_upper_bound. pose proof (nat_ascii_bounded ch). lia.
Qed.

(** handleDownload does nothing at all for an asset without a url and
    for a content asset.  For any other asset it clicks one link, named
    [<title>-<type>]: the link points at the url itself, unless the url
    is on Supabase storage, where it gets the query [?download=] followed
    by the encoded title, a dot and [png] for an image or [mp4]
    otherwise. *)
Theorem download_link asset :
  (truthy (str_field asset "asset_url") = false \/
   field_is asset "asset_type" "content" = true ->
   forall dom, handleDownload dom asset = []) /\
  (forall url,
     str_field asset "asset_url" = Some url -> url <> "" ->
     field_is asset "asset_type" "content" = false ->
     (exists started,
        handleDownload (Returned tt) asset
        = [DClickLink (downloadUrl asset)
                      (template_field asset "title" ++ "-" ++ template_field asset "asset_type")
                      "_blank"; DToast started]) /\
     (includes url "supabase.co/storage" = false -> downloadUrl asset = url) /\
     (includes url "supabase.co/storage" = true ->
      exists query,
        downloadUrl asset
        = url ++ "?download=" ++ query ++ "."
          ++ (if field_is asset "asset_type" "image" then "png" else "mp4") /\
        query = encodeURIComponent (template_field asset "title") /\
        string_forallb (fun c => is_unreserved c || Ascii.eqb c "%") query = true)).
Proof.
  split.
  - intros [H|H] dom; unfold handleDownload; rewrite H; cbn;
      [reflexivity|now rewrite andb_false_r].
  - intros url Hurl Hne Htype. apply String.eqb_neq in Hne.
    unfold handleDownload, downloadUrl. rewrite Hurl, Htype. cbn [truthy or_else negb andb].
    rewrite Hne. cbn [negb]. split; [eexists; reflexivity|]. split.
    + now intros ->.
    + intros ->. eexists. split; [reflexivity|]. split; [reflexivity|].
      apply encodeURIComponent_is_safe.
Qed.

Lemma download_link_witness :
  str_field storedVideo "asset_url"
    = Some "https://abc.supabase.co/storage/v1/object/public/videos/s1.mp4" /\
  field_is storedVideo "asset_type" "content" = false /\
  includes "https://abc.supabase.co/storage/v1/object/public/videos/s1.mp4"
           "supabase.co/storage" = true /\
  downloadUrl storedVideo
    = "https://abc.supabase.co/storage/v1/object/public/videos/s1.mp4?download=Spring%20sale%20%2F%2050%25%20off.mp4" /\
  exists query,
    downloadUrl storedVideo
    = "https://abc.supabase.co/storage/v1/object/public/videos/s1.mp4"
      ++ "?download=" ++ query ++ "."
      ++ (if field_is storedVideo "asset_type" "image" then "png" else "mp4") /\
    query = encodeURIComponent (template_field storedVideo "title") /\
    string_forallb (fun c => is_unreserved c || Ascii.eqb c "%") query = true.
Proof.
  split; [reflexivity|]. split; [reflexivity|]. split; [reflexivity|].
  split; [reflexivity|].
  apply (proj2 (download_link storedVideo)
           "https://abc.supabase.co/storage/v1/object/public/videos/s1.mp4");
    [reflexivity|discriminate|reflexivity|reflexivity].
Defined.
